(* ===================================================================== *)
(* Azure DevOps MCP server: start-up configuration and the lazily built *)
(* authenticated client (src/index.ts).                                  *)
(*                                                                       *)
(* The module evaluates its top-level statements (option parsing, the    *)
(* organization URL, the domain filter), then runs main(), which wires   *)
(* the user-agent composer, the tenant lookup, the authenticator and the *)
(* client factory into the tool registrar.  Promises are modelled in a   *)
(* state-and-rejection monad over an explicit world; the user-agent      *)
(* composer is an object in a store that the handshake callback and the  *)
(* client factory reach through the same reference.                      *)
(* ===================================================================== *)

From stdpp Require Import base option strings list gmap.

Open Scope string_scope.
Open Scope list_scope.

(* --------------------------------------------------------------------- *)
(* Values                                                                 *)
(* --------------------------------------------------------------------- *)

(** JavaScript truthiness of a [string | undefined] value, as in [!!v]. *)
Definition truthy (v : option string) : bool :=
  match v with
  | None => false
  | Some s => negb (String.eqb s "")
  end.

(** [a ?? b] on an optional string: [b] only when [a] is undefined. *)
Definition nullish {A : Type} (a : option A) (b : A) : A :=
  match a with
  | Some x => x
  | None => b
  end.

(** [a ?? b] when the right operand may be undefined as well. *)
Definition nullish_opt {A : Type} (a b : option A) : option A :=
  match a with
  | Some x => Some x
  | None => b
  end.

(** What a rejected promise or a thrown exception carries.  The first
    three are the error kinds of the specification; [OtherError] stands
    for any further value a collaborator may throw. *)
Inductive Error : Type :=
| UnknownDomain (offending : string) (valid : list string)
| MissingCredential
| AuthFailed (detail : string)
| UnsupportedStrategy (name : string)
| OtherError (detail : string).

#[global] Instance Error_eq_dec : EqDecision Error.
Proof. solve_decision. Defined.

(* --------------------------------------------------------------------- *)
(* Command line (index.ts, lines 21-77)                                   *)
(* --------------------------------------------------------------------- *)

Module Cli.

(** process.env *)
Definition Env := gmap string string.

(** index.ts:21 isGitHubCodespaceEnv *)
Definition isGitHubCodespaceEnv (env : Env) : bool :=
  bool_decide (env !! "CODESPACES" = Some "true") && truthy (env !! "CODESPACE_NAME").

(** index.ts:25 *)
Definition defaultAuthenticationType (env : Env) : string :=
  if isGitHubCodespaceEnv env then "azcli" else "interactive".

(** The [choices] of the authentication option, index.ts:50. *)
Definition authenticationChoices : list string :=
  ["interactive"; "azcli"; "env"; "envvar"; "pat"].

(** The [default] of the domains option, index.ts:44; the option is
    declared [array: true], so the parsed value is a list. *)
Definition defaultDomains : list string := ["all"].

(** What the operator typed: every option is optional on the command
    line, the positional organization included (its absence is a parse
    failure, [demandOption]). *)
Record CommandLine : Type := mkCommandLine {
  cl_organization : option string;
  cl_domains : option (list string);
  cl_authentication : option string;
  cl_tenant : option string;
  cl_serverUrl : option string;
  cl_patToken : option string;
  cl_serverVersion : option string
}.

(** The parsed [argv] object. *)
Record Argv : Type := mkArgv {
  organization : string;
  domains : list string;
  authentication : string;
  tenant : option string;
  serverUrl : option string;
  patToken : option string;
  serverVersion : option string
}.

(** Why yargs refused the command line. *)
Inductive ParseFailure : Type :=
| MissingOrganization
| InvalidChoice (option_name given : string).

(** index.ts:28-74, [yargs(...).parseSync()] for a command line of
    option values, one value per option: defaults fill the options left
    out, the organization is demanded, and the authentication value
    must be one of the choices.  The flags --help and --version, which
    print and end the process, are not command lines of this model. *)
Definition parseSync (env : Env) (cl : CommandLine) : ParseFailure + Argv :=
  match cl_organization cl with
  | None => inl MissingOrganization
  | Some org =>
      let auth := nullish (cl_authentication cl) (defaultAuthenticationType env) in
      if decide (auth ∈ authenticationChoices) then
        inr {| organization := org;
               domains := nullish (cl_domains cl) defaultDomains;
               authentication := auth;
               tenant := cl_tenant cl;
               serverUrl := cl_serverUrl cl;
               patToken := cl_patToken cl;
               serverVersion := cl_serverVersion cl |}
      else inl (InvalidChoice "authentication" auth)
  end.

(** index.ts:76 *)
Definition orgName (argv : Argv) : string := organization argv.

(** index.ts:77 *)
Definition orgUrl (argv : Argv) : string :=
  nullish (serverUrl argv) ("https://dev.azure.com/" +:+ orgName argv).

End Cli.

(* --------------------------------------------------------------------- *)
(* User-agent composer                                                    *)
(* --------------------------------------------------------------------- *)

Module UserAgent.

(** The identity a protocol client reports in the handshake. *)
Record ClientInfo : Type := mkClientInfo {
  ci_name : string;
  ci_version : string
}.

(** Modelled from the spec: the UserAgentComposer class (useragent.ts
    is not among the sources).  The state is the record of the data
    model: a product version fixed at construction and the client
    identity learned in the handshake. *)
Record State : Type := mkState {
  productVersion : string;
  clientInfo : option ClientInfo
}.

(** Modelled from the spec: the constructor of UserAgentComposer,
    which fixes the product version and knows no client yet. *)
Definition create (version : string) : State :=
  {| productVersion := version; clientInfo := None |}.

(** Modelled from the spec: appendMcpClientInfo of UserAgentComposer;
    a later call overwrites what an earlier one stored. *)
Definition appendMcpClientInfo (info : option ClientInfo) (st : State) : State :=
  {| productVersion := productVersion st; clientInfo := info |}.

(** Modelled from the spec: the userAgent getter of UserAgentComposer,
    a deterministic format of the state at read time, in the shape
    ProductName/Version (ClientName/ClientVersion). *)
Definition userAgent (st : State) : string :=
  "AzureDevOps.MCP/" +:+ productVersion st +:+
  match clientInfo st with
  | None => ""
  | Some ci => " (" +:+ ci_name ci +:+ "/" +:+ ci_version ci +:+ ")"
  end.

End UserAgent.

(* --------------------------------------------------------------------- *)
(* The transport client (azure-devops-node-api), as far as the factory    *)
(* controls it: the arguments its constructor receives.                   *)
(* --------------------------------------------------------------------- *)

Module Api.

(** The two credential handlers the factory chooses between. *)
Inductive AuthHandler : Type :=
| PersonalAccessTokenHandler (token : string)
| BearerHandler (token : string).

Definition getPersonalAccessTokenHandler (token : string) : AuthHandler :=
  PersonalAccessTokenHandler token.

Definition getBearerHandler (token : string) : AuthHandler :=
  BearerHandler token.

Definition handlerToken (h : AuthHandler) : string :=
  match h with
  | PersonalAccessTokenHandler t => t
  | BearerHandler t => t
  end.

Definition isBearer (h : AuthHandler) : bool :=
  match h with
  | BearerHandler _ => true
  | PersonalAccessTokenHandler _ => false
  end.

(** The fourth constructor argument, the product descriptor. *)
Record RequestSettings : Type := mkRequestSettings {
  productName : string;
  productVersion : string;
  userAgent : string
}.

(** [new WebApi(defaultUrl, authHandler, options, requestSettings)];
    the factory passes [undefined] for the options. *)
Record WebApi : Type := mkWebApi {
  serverUrl : string;
  authHandler : AuthHandler;
  options : option unit;
  requestSettings : RequestSettings
}.

End Api.

(* --------------------------------------------------------------------- *)
(* World, promises and the call trace                                     *)
(* --------------------------------------------------------------------- *)

(** References to composer objects in the store. *)
Definition Ref : Type := positive.

(** Calls the program makes to its collaborators, in program order.  The
    trace is ghost state: it is appended to at the call sites of
    index.ts and no collaborator can rewrite it. *)
Inductive Event : Type :=
| EvLogInfo (organizationUrl authentication : string)
| EvGetOrgTenant (org : string)
| EvCreateAuthenticator (type : string) (tenantId patToken : option string)
| EvConfigureAllTools (enabledDomains : gset string)
| EvConnect
| EvTokenRequest
| EvNewWebApi (url : string)
| EvLogError (e : Error)
| EvExit (code : Z).

#[global] Instance Event_eq_dec : EqDecision Event.
Proof. solve_decision. Defined.

(** How a promise settles. *)
Inductive Outcome (A : Type) : Type :=
| Resolved (a : A)
| Rejected (e : Error).
Arguments Resolved {A} a.
Arguments Rejected {A} e.

Section World.

(** State of everything outside index.ts: identity sessions, token
    caches, the tenant cache, the network. *)
Variable Ext : Type.

(** What collaborators can read and write: the composer objects and
    their own state. *)
Record Store : Type := mkStore {
  heap : gmap Ref UserAgent.State;
  ext : Ext
}.

Record World : Type := mkWorld {
  store : Store;
  trace : list Event
}.

(** An asynchronous operation of a collaborator, together with
    whatever else the event loop runs until it settles. *)
Definition Task (A : Type) : Type := Store -> Outcome A * Store.

(** A computation of index.ts. *)
Definition M (A : Type) : Type := World -> Outcome A * World.

Definition ret {A : Type} (a : A) : M A := fun w => (Resolved a, w).

Definition throw {A : Type} (e : Error) : M A := fun w => (Rejected e, w).

Definition bind {A B : Type} (m : M A) (k : A -> M B) : M B :=
  fun w =>
    match m w with
    | (Resolved a, w') => k a w'
    | (Rejected e, w') => (Rejected e, w')
    end.

Definition emit (ev : Event) : M unit :=
  fun w => (Resolved tt, {| store := store w; trace := trace w ++ [ev] |}).

(** [await t()]: the call is recorded, the task runs on the store, a
    rejection is rethrown at the await.  A synchronous call into a
    collaborator that may throw and touch the store runs the same way. *)
Definition await {A : Type} (ev : Event) (t : Task A) : M A :=
  fun w =>
    let (r, s') := t (store w) in
    (r, {| store := s'; trace := trace w ++ [ev] |}).

(** A synchronous call that may throw. *)
Definition invoke {A : Type} (ev : Event) (r : Error + A) : M A :=
  fun w =>
    (match r with inl e => Rejected e | inr a => Resolved a end,
     {| store := store w; trace := trace w ++ [ev] |}).

(** Allocation of a composer object at a reference the store does not
    use yet. *)
Definition allocComposer (version : string) (s : Store) : Ref * Store :=
  let r := fresh (dom (heap s)) in
  (r, {| heap := <[r := UserAgent.create version]> (heap s); ext := ext s |}).

(** [new UserAgentComposer(version)]: a fresh object in the store. *)
Definition newUserAgentComposer (version : string) : M Ref :=
  fun w =>
    let (r, s') := allocComposer version (store w) in
    (Resolved r, {| store := s'; trace := trace w |}).

(** [composer.userAgent], read through the reference. *)
Definition readUserAgent (composer : Ref) : M string :=
  fun w =>
    match heap (store w) !! composer with
    | Some st => (Resolved (UserAgent.userAgent st), w)
    | None => (Rejected (OtherError "TypeError: composer is undefined"), w)
    end.

(** [composer.appendMcpClientInfo(info)], written through the reference. *)
Definition writeClientInfo (composer : Ref) (info : option UserAgent.ClientInfo) : M unit :=
  fun w =>
    match heap (store w) !! composer with
    | Some st =>
        (Resolved tt,
         {| store := {| heap := <[composer := UserAgent.appendMcpClientInfo info st]> (heap (store w));
                        ext := ext (store w) |};
            trace := trace w |})
    | None => (Rejected (OtherError "TypeError: composer is undefined"), w)
    end.

End World.

Arguments mkStore {Ext} heap ext.
Arguments heap {Ext} s.
Arguments ext {Ext} s.
Arguments mkWorld {Ext} store trace.
Arguments store {Ext} w.
Arguments trace {Ext} w.
Arguments ret {Ext A} a w.
Arguments throw {Ext A} e w.
Arguments bind {Ext A B} m k w.
Arguments emit {Ext} ev w.
Arguments await {Ext A} ev t w.
Arguments invoke {Ext A} ev r w.
Arguments allocComposer {Ext} version s.
Arguments newUserAgentComposer {Ext} version w.
Arguments readUserAgent {Ext} composer w.
Arguments writeClientInfo {Ext} composer info w.

Declare Scope async_scope.
Delimit Scope async_scope with async.
Notation "x <- c ;; k" := (bind c (fun x => k))
  (at level 100, c at next level, right associativity) : async_scope.
Notation "c ;;; k" := (bind c (fun _ => k))
  (at level 100, right associativity) : async_scope.

(* --------------------------------------------------------------------- *)
(* Domain filter                                                          *)
(* --------------------------------------------------------------------- *)

Module Domains.

(** The wildcard token. *)
Definition ALL_DOMAINS : string := "all".

(** Modelled from the spec: the wildcard test of DomainsManager
    (shared/domains.ts is not among the sources): the request consists
    of the literal token only, compared exactly. *)
Definition isWildcard (requested : list string) : bool :=
  match requested with
  | [] => false
  | _ => forallb (String.eqb ALL_DOMAINS) requested
  end.

(** Modelled from the spec: the validation loop of DomainsManager;
    every requested string is a domain name, the first one outside the
    registry is reported with the valid options, duplicates collapse. *)
Fixpoint validate (registry requested : list string) : Error + gset string :=
  match requested with
  | [] => inr ∅
  | d :: rest =>
      if decide (d ∈ registry) then
        match validate registry rest with
        | inl e => inl e
        | inr enabled => inr ({[d]} ∪ enabled)
        end
      else inl (UnknownDomain d registry)
  end.

(** Modelled from the spec: [new DomainsManager(requested)] followed by
    [getEnabledDomains()], the contract [resolve] of the Domain Filter. *)
Definition resolve (registry requested : list string) : Error + gset string :=
  if isWildcard requested then inr (list_to_set registry)
  else validate registry requested.

End Domains.

(* --------------------------------------------------------------------- *)
(* Authenticator factory                                                  *)
(* --------------------------------------------------------------------- *)

Module Auth.

Inductive AuthStrategy : Type :=
| Interactive
| AzCli
| EnvStrategy
| EnvVar
| Pat.

Definition strategyOfName (name : string) : option AuthStrategy :=
  if decide (name = "interactive") then Some Interactive
  else if decide (name = "azcli") then Some AzCli
  else if decide (name = "env") then Some EnvStrategy
  else if decide (name = "envvar") then Some EnvVar
  else if decide (name = "pat") then Some Pat
  else None.

(** The identity mechanisms behind the strategies, opaque to this
    layer: each is an asynchronous operation that may fail. *)
Record Flows (Ext : Type) : Type := mkFlows {
  interactiveFlow : option string -> Task Ext string;
  azcliSession : option string -> Task Ext string;
  envCredential : Task Ext string;
  envvarCredential : Task Ext string
}.
Arguments interactiveFlow {Ext} f tenantId s.
Arguments azcliSession {Ext} f tenantId s.
Arguments envCredential {Ext} f s.
Arguments envvarCredential {Ext} f s.

(** The token provider of the [pat] strategy: the fixed value, no
    suspension, the store untouched. *)
Definition staticProvider {Ext : Type} (credential : string) : Task Ext string :=
  fun s => (Resolved credential, s).

(** Modelled from the spec: the contract [create] of the Authenticator
    Factory (auth.ts is not among the sources).  Only [pat] can fail
    at construction, when the static credential is absent or empty. *)
Definition create {Ext : Type} (flows : Flows Ext) (strategy : AuthStrategy)
    (tenantId staticCredential : option string) : Error + Task Ext string :=
  match strategy with
  | Interactive => inr (interactiveFlow flows tenantId)
  | AzCli => inr (azcliSession flows tenantId)
  | EnvStrategy => inr (envCredential flows)
  | EnvVar => inr (envvarCredential flows)
  | Pat =>
      match staticCredential with
      | Some credential =>
          if String.eqb credential "" then inl MissingCredential
          else inr (staticProvider credential)
      | None => inl MissingCredential
      end
  end.

(** Modelled from the spec: [createAuthenticator(type, tenantId,
    patToken)], the factory above reached with the strategy name that
    index.ts holds; a name outside the enumeration has no strategy. *)
Definition createAuthenticator {Ext : Type} (flows : Flows Ext) (type : string)
    (tenantId patToken : option string) : Error + Task Ext string :=
  match strategyOfName type with
  | Some strategy => create flows strategy tenantId patToken
  | None => inl (UnsupportedStrategy type)
  end.

End Auth.

(* --------------------------------------------------------------------- *)
(* index.ts: the client factory, main() and the module body               *)
(* --------------------------------------------------------------------- *)

Section Server.

Variable Ext : Type.

(** version.ts: the package version, fixed when the process starts. *)
Variable packageVersion : string.

(** shared/domains.ts: [new DomainsManager(requested).getEnabledDomains()]. *)
Variable DomainsManager : list string -> Error + gset string.

(** org-tenants.ts: the tenant lookup keyed by the organization name. *)
Variable getOrgTenant : string -> Task Ext (option string).

(** auth.ts: the authenticator factory. *)
Variable createAuthenticator :
  string -> option string -> option string -> Error + Task Ext string.

(** tools.ts: the tool registrar, called with the authenticator, the
    client factory, the user-agent getter and the enabled domains; it
    may throw. *)
Variable configureAllTools :
  Task Ext string -> M Ext Api.WebApi -> M Ext string -> gset string -> Task Ext unit.

(** [server.connect(transport)] on the stdio transport; it may reject. *)
Variable connect : Task Ext unit.

Local Open Scope async_scope.

(** [new WebApi(...)], recorded in the trace.  The constructor is taken
    to return; a throw inside the library's constructor is not
    modelled, and the properties of the factory speak of the clients
    that are built. *)
Definition newWebApi (url : string) (handler : Api.AuthHandler)
    (settings : Api.RequestSettings) : M Ext Api.WebApi :=
  emit (EvNewWebApi url) ;;;
  ret {| Api.serverUrl := url;
         Api.authHandler := handler;
         Api.options := None;
         Api.requestSettings := settings |}.

(** index.ts:82-93.  The returned closure is the computation itself:
    running it on a world is one invocation of the factory. *)
Definition getAzureDevOpsClient (argv : Cli.Argv) (getAzureDevOpsToken : Task Ext string)
    (userAgentComposer : Ref) : M Ext Api.WebApi :=
  accessToken <- await EvTokenRequest getAzureDevOpsToken ;;
  let authHandler :=
    if decide (Cli.authentication argv = "pat")
    then Api.getPersonalAccessTokenHandler accessToken
    else Api.getBearerHandler accessToken in
  userAgent <- readUserAgent userAgentComposer ;;
  newWebApi (Cli.orgUrl argv) authHandler
    {| Api.productName := "AzureDevOps.MCP";
       Api.productVersion := packageVersion;
       Api.userAgent := userAgent |}.

(** What main() hands to the tool registrar and leaves installed on
    the server once it is connected. *)
Record Running : Type := mkRunning {
  run_composer : Ref;
  run_oninitialized : option UserAgent.ClientInfo -> M Ext unit;
  run_authenticator : Task Ext string;
  run_clientFactory : M Ext Api.WebApi;
  run_userAgent : M Ext string;
  run_enabledDomains : gset string
}.

(** index.ts:95-132 *)
Definition main (argv : Cli.Argv) (enabledDomains : gset string) : M Ext Running :=
  emit (EvLogInfo (Cli.orgUrl argv) (Cli.authentication argv)) ;;;
  userAgentComposer <- newUserAgentComposer packageVersion ;;
  let oninitialized := fun info => writeClientInfo userAgentComposer info in
  found <- await (EvGetOrgTenant (Cli.orgName argv)) (getOrgTenant (Cli.orgName argv)) ;;
  let tenantId := nullish_opt found (Cli.tenant argv) in
  let patToken := Cli.patToken argv in
  authenticator <- invoke (EvCreateAuthenticator (Cli.authentication argv) tenantId patToken)
                          (createAuthenticator (Cli.authentication argv) tenantId patToken) ;;
  await (EvConfigureAllTools enabledDomains)
        (configureAllTools authenticator
           (getAzureDevOpsClient argv authenticator userAgentComposer)
           (readUserAgent userAgentComposer) enabledDomains) ;;;
  await EvConnect connect ;;;
  ret {| run_composer := userAgentComposer;
         run_oninitialized := oninitialized;
         run_authenticator := authenticator;
         run_clientFactory := getAzureDevOpsClient argv authenticator userAgentComposer;
         run_userAgent := readUserAgent userAgentComposer;
         run_enabledDomains := enabledDomains |}.

(** How the process stands after start-up. *)
Inductive Status : Type :=
| Serving (r : Running)
| UsageExit (f : Cli.ParseFailure)
| Uncaught (e : Error)
| FatalExit (e : Error).

(** The module body, top to bottom: parse (yargs prints the usage and
    exits on a failure), build the domain filter (an exception here is
    uncaught and ends the process before main() is called), then
    [main().catch(...)], which logs and exits with code 1. *)
Definition program (env : Cli.Env) (cl : Cli.CommandLine) (w : World Ext) : Status * World Ext :=
  match Cli.parseSync env cl with
  | inl f => (UsageExit f, {| store := store w; trace := trace w ++ [EvExit 1] |})
  | inr argv =>
      match DomainsManager (Cli.domains argv) with
      | inl e => (Uncaught e, w)
      | inr enabledDomains =>
          match main argv enabledDomains w with
          | (Resolved r, w') => (Serving r, w')
          | (Rejected e, w') =>
              (FatalExit e, {| store := store w'; trace := trace w' ++ [EvLogError e; EvExit 1] |})
          end
      end
  end.

End Server.

Arguments newWebApi {Ext} url handler settings w.
Arguments getAzureDevOpsClient {Ext} packageVersion argv getAzureDevOpsToken userAgentComposer w.
Arguments mkRunning {Ext}.
Arguments run_composer {Ext} r.
Arguments run_oninitialized {Ext} r info w.
Arguments run_authenticator {Ext} r s.
Arguments run_clientFactory {Ext} r w.
Arguments run_userAgent {Ext} r w.
Arguments run_enabledDomains {Ext} r.
Arguments main {Ext} packageVersion getOrgTenant createAuthenticator configureAllTools connect
  argv enabledDomains w.
Arguments Serving {Ext} r.
Arguments UsageExit {Ext} f.
Arguments Uncaught {Ext} e.
Arguments FatalExit {Ext} e.
Arguments program {Ext} packageVersion DomainsManager getOrgTenant createAuthenticator
  configureAllTools connect env cl w.

(* --------------------------------------------------------------------- *)
(* Reading the trace                                                      *)
(* --------------------------------------------------------------------- *)

(** The organizations the tenant lookup was asked about, in order. *)
Fixpoint lookups (t : list Event) : list string :=
  match t with
  | [] => []
  | EvGetOrgTenant org :: rest => org :: lookups rest
  | _ :: rest => lookups rest
  end.

(** The arguments of each call to the authenticator factory, in order. *)
Fixpoint authenticatorCalls (t : list Event) : list (string * option string * option string) :=
  match t with
  | [] => []
  | EvCreateAuthenticator type tenantId pat :: rest => (type, tenantId, pat) :: authenticatorCalls rest
  | _ :: rest => authenticatorCalls rest
  end.

Definition isTokenRequest (ev : Event) : bool :=
  match ev with EvTokenRequest => true | _ => false end.

Definition isNewWebApi (ev : Event) : bool :=
  match ev with EvNewWebApi _ => true | _ => false end.

Definition isRegistration (ev : Event) : bool :=
  match ev with EvConfigureAllTools _ => true | _ => false end.

Definition isConnect (ev : Event) : bool :=
  match ev with EvConnect => true | _ => false end.

(** Two invocations of a factory with something happening in between,
    as a test would drive them. *)
Definition twoBuilds {Ext : Type} (build : M Ext Api.WebApi) (between : M Ext unit)
    : M Ext (Api.WebApi * Api.WebApi) :=
  (first <- build ;;
   between ;;;
   second <- build ;;
   ret (first, second))%async.

(** The client one invocation of the factory builds from the token it
    obtained and the composer state it read. *)
Definition clientOf (packageVersion : string) (argv : Cli.Argv) (accessToken : string)
    (st : UserAgent.State) : Api.WebApi :=
  {| Api.serverUrl := Cli.orgUrl argv;
     Api.authHandler :=
       if decide (Cli.authentication argv = "pat")
       then Api.PersonalAccessTokenHandler accessToken
       else Api.BearerHandler accessToken;
     Api.options := None;
     Api.requestSettings :=
       {| Api.productName := "AzureDevOps.MCP";
          Api.productVersion := packageVersion;
          Api.userAgent := UserAgent.userAgent st |} |}.

(** The reading of the tenant rule that prefers the operator's value:
    the explicit tenant when present, the looked-up one otherwise. *)
Definition explicitTenantFirst (explicit found : option string) : option string :=
  match explicit with
  | Some t => Some t
  | None => found
  end.

(** [n] invocations of a factory in a row, as successive tool calls
    make them; the first rejection ends the row. *)
Fixpoint buildMany {Ext : Type} (build : M Ext Api.WebApi) (n : nat)
    : M Ext (list Api.WebApi) :=
  match n with
  | 0 => ret []
  | S k =>
      (client <- build ;;
       rest <- buildMany build k ;;
       ret (client :: rest))%async
  end.

(** How many events of a kind a trace holds. *)
Definition countEvents (kind : Event -> bool) (t : list Event) : nat :=
  length (List.filter kind t).

(* --------------------------------------------------------------------- *)
(* A concrete deployment, for running the definitions                     *)
(* --------------------------------------------------------------------- *)

Module Demo.

(** The external state is the number of tokens issued so far. *)
Definition Ext : Type := nat.

Definition tokenName (n : nat) : string :=
  match n with
  | 0 => "token-a"
  | 1 => "token-b"
  | _ => "token-z"
  end.

(** A provider that issues a new token on every invocation. *)
Definition issuing : Task Ext string :=
  fun s => (Resolved (tokenName (ext s)), {| heap := heap s; ext := S (ext s) |}).

(** A provider with no session to draw on. *)
Definition failing : Task Ext string :=
  fun s => (Rejected (AuthFailed "no active session"), s).

Definition flows : Auth.Flows Ext :=
  {| Auth.interactiveFlow := fun _ => issuing;
     Auth.azcliSession := fun _ => failing;
     Auth.envCredential := issuing;
     Auth.envvarCredential := issuing |}.

Definition registry : list string :=
  ["repositories"; "builds"; "work"].

Definition version : string := "1.2.3".

(** The organization is known to the tenant lookup. *)
Definition tenantKnown : string -> Task Ext (option string) :=
  fun _ s => (Resolved (Some "tenant-of-org"), s).

(** The organization is not known to the tenant lookup. *)
Definition tenantUnknown : string -> Task Ext (option string) :=
  fun _ s => (Resolved None, s).

(** A registrar that registers and leaves the store alone. *)
Definition registrar :
    Task Ext string -> M Ext Api.WebApi -> M Ext string -> gset string -> Task Ext unit :=
  fun _ _ _ _ s => (Resolved tt, s).

(** A transport that connects. *)
Definition connect : Task Ext unit :=
  fun s => (Resolved tt, s).


(** The tenant lookup itself fails. *)
Definition tenantFailing : string -> Task Ext (option string) :=
  fun _ s => (Rejected (OtherError "tenant lookup failed"), s).

Definition emptyWorld : World Ext :=
  {| store := {| heap := ∅; ext := 0 |}; trace := [] |}.

(** A world where a composer already lives at reference 1. *)
Definition composerRef : Ref := 1%positive.

Definition servingWorld : World Ext :=
  {| store := {| heap := {[ composerRef := UserAgent.create version ]}; ext := 0 |};
     trace := [] |}.

Definition agent : UserAgent.ClientInfo :=
  {| UserAgent.ci_name := "agent-x"; UserAgent.ci_version := "0.1" |}.

Definition commandLine (auth : option string) (pat : option string) : Cli.CommandLine :=
  {| Cli.cl_organization := Some "contoso";
     Cli.cl_domains := None;
     Cli.cl_authentication := auth;
     Cli.cl_tenant := Some "tenant-of-operator";
     Cli.cl_serverUrl := None;
     Cli.cl_patToken := pat;
     Cli.cl_serverVersion := None |}.

Definition argvWith (auth : string) (url : option string) : Cli.Argv :=
  {| Cli.organization := "contoso";
     Cli.domains := ["all"];
     Cli.authentication := auth;
     Cli.tenant := Some "tenant-of-operator";
     Cli.serverUrl := url;
     Cli.patToken := None;
     Cli.serverVersion := None |}.

Definition codespace : Cli.Env :=
  {[ "CODESPACES" := "true"; "CODESPACE_NAME" := "fuzzy-space" ]}.

(** The handshake callback as main() installs it, for the composer at
    [composerRef]. *)
Definition handshake : M Ext unit :=
  writeClientInfo composerRef (Some agent).

(** The store after one token was issued. *)
Definition storeAfterFirst : Store Ext :=
  {| heap := {[ composerRef := UserAgent.create version ]}; ext := 1 |}.

(** The world after the first client was built and the handshake ran. *)
Definition worldAfterHandshake : World Ext :=
  {| store := {| heap := <[ composerRef := UserAgent.appendMcpClientInfo (Some agent)
                                             (UserAgent.create version) ]>
                           {[ composerRef := UserAgent.create version ]};
                 ext := 1 |};
     trace := [EvTokenRequest; EvNewWebApi "https://dev.azure.com/contoso"] |}.

(** The store after the second token was issued. *)
Definition storeAfterSecond : Store Ext :=
  {| heap := heap (store worldAfterHandshake); ext := 2 |}.

End Demo.

(* ===================================================================== *)
(* Properties                                                             *)
(* ===================================================================== *)

Ltac unfold_async :=
  unfold twoBuilds, getAzureDevOpsClient, newWebApi, readUserAgent, writeClientInfo,
    newUserAgentComposer, await, invoke, emit, bind, ret, throw in *.

(* --------------------------------------------------------------------- *)
(* The client factory                                                     *)
(* --------------------------------------------------------------------- *)

Section FactoryFacts.

Context {Ext : Type}.
Variable packageVersion : string.
Variable argv : Cli.Argv.
Variable getAzureDevOpsToken : Task Ext string.
Variable userAgentComposer : Ref.

Local Abbreviation build :=
  (getAzureDevOpsClient packageVersion argv getAzureDevOpsToken userAgentComposer).

(** One invocation, when the provider resolves and the composer is
    there to be read once the token has arrived. *)
Lemma build_resolved (w : World Ext) accessToken s' st :
  getAzureDevOpsToken (store w) = (Resolved accessToken, s') ->
  heap s' !! userAgentComposer = Some st ->
  build w = (Resolved (clientOf packageVersion argv accessToken st),
             {| store := s';
                trace := (trace w ++ [EvTokenRequest]) ++ [EvNewWebApi (Cli.orgUrl argv)] |}).
Proof.
  intros Htok Hst. unfold_async.
  rewrite Htok. cbn. rewrite Hst. reflexivity.
Qed.

(** One invocation, when the provider rejects. *)
Lemma build_rejected (w : World Ext) e s' :
  getAzureDevOpsToken (store w) = (Rejected e, s') ->
  build w = (Rejected e, {| store := s'; trace := trace w ++ [EvTokenRequest] |}).
Proof.
  intros Htok. unfold_async. rewrite Htok. reflexivity.
Qed.

(** Whatever an invocation resolves with was built from the token the
    provider returned in that invocation. *)
Lemma build_inv (w w' : World Ext) client :
  build w = (Resolved client, w') ->
  exists accessToken st,
    getAzureDevOpsToken (store w) = (Resolved accessToken, store w') /\
    heap (store w') !! userAgentComposer = Some st /\
    client = clientOf packageVersion argv accessToken st /\
    trace w' = (trace w ++ [EvTokenRequest]) ++ [EvNewWebApi (Cli.orgUrl argv)].
Proof.
  intros Hrun.
  destruct (getAzureDevOpsToken (store w)) as [[accessToken | e] s'] eqn:Htok.
  - destruct (heap s' !! userAgentComposer) as [st |] eqn:Hst.
    + rewrite (build_resolved w accessToken s' st Htok Hst) in Hrun.
      inversion Hrun; subst; cbn. exists accessToken, st. auto.
    + unfold_async. rewrite Htok in Hrun. cbn in Hrun.
      rewrite Hst in Hrun. discriminate.
  - rewrite (build_rejected w e s' Htok) in Hrun. discriminate.
Qed.

(** C1: in every invocation of the client factory whose token request
    resolves, the token obtained is attached with the personal-access-
    token handler when the strategy is pat, and with the bearer
    handler for every other strategy, interactive, azcli, env and
    envvar among them. *)
Theorem client_credential_scheme (w : World Ext) accessToken s' st :
  getAzureDevOpsToken (store w) = (Resolved accessToken, s') ->
  heap s' !! userAgentComposer = Some st ->
  exists client w',
    getAzureDevOpsClient packageVersion argv getAzureDevOpsToken userAgentComposer w
      = (Resolved client, w') /\
    (Cli.authentication argv = "pat" ->
       Api.authHandler client = Api.PersonalAccessTokenHandler accessToken) /\
    (Cli.authentication argv <> "pat" ->
       Api.authHandler client = Api.BearerHandler accessToken) /\
    (Cli.authentication argv ∈ ["interactive"; "azcli"; "env"; "envvar"] ->
       Api.authHandler client = Api.BearerHandler accessToken).
Proof.
  intros Htok Hst. eexists _, _. split; [exact (build_resolved w _ _ _ Htok Hst) |].
  cbn. destruct (decide (Cli.authentication argv = "pat")) as [Hpat | Hother].
  - rewrite Hpat. repeat split; try congruence.
    intros Hin. exfalso. revert Hin. rewrite !elem_of_cons, elem_of_nil. intuition discriminate.
  - repeat split; auto. congruence.
Qed.

(** C2: when the token provider rejects, the invocation rejects with
    that very error; the provider was asked once, no client was
    constructed, and the world is left as the provider left it. *)
Theorem provider_failure_propagates (w : World Ext) e s' :
  getAzureDevOpsToken (store w) = (Rejected e, s') ->
  exists w',
    getAzureDevOpsClient packageVersion argv getAzureDevOpsToken userAgentComposer w
      = (Rejected e, w') /\
    store w' = s' /\
    trace w' = trace w ++ [EvTokenRequest] /\
    filter (fun ev => isNewWebApi ev = true) (trace w')
      = filter (fun ev => isNewWebApi ev = true) (trace w).
Proof.
  intros Htok. eexists. split; [exact (build_rejected w e s' Htok) |].
  cbn. repeat split. rewrite filter_app. cbn. apply app_nil_r.
Qed.

(** C10: every client the factory constructs carries the product name
    AzureDevOps.MCP and the package version; its product descriptor is
    determined up to the user-agent field. *)
Theorem client_product_descriptor (w w' : World Ext) client :
  getAzureDevOpsClient packageVersion argv getAzureDevOpsToken userAgentComposer w
    = (Resolved client, w') ->
  Api.productName (Api.requestSettings client) = "AzureDevOps.MCP" /\
  Api.productVersion (Api.requestSettings client) = packageVersion /\
  Api.requestSettings client =
    {| Api.productName := "AzureDevOps.MCP";
       Api.productVersion := packageVersion;
       Api.userAgent := Api.userAgent (Api.requestSettings client) |}.
Proof.
  intros Hrun. destruct (build_inv w w' client Hrun) as (tok & st & _ & _ & -> & _).
  cbn. auto.
Qed.

(** C3: nothing is cached across invocations.  Of two invocations
    with any step in between, each asks the token provider once, and
    each client carries the token of its own invocation, the
    organization URL, and the user-agent string the composer gives
    when that invocation reads it; when the composer's string changed
    in between, the two clients carry different user agents. *)
Theorem builds_are_independent (w : World Ext) (between : M Ext unit)
    token1 s1 st1 w1 token2 s2 st2 :
  getAzureDevOpsToken (store w) = (Resolved token1, s1) ->
  heap s1 !! userAgentComposer = Some st1 ->
  between {| store := s1;
             trace := (trace w ++ [EvTokenRequest]) ++ [EvNewWebApi (Cli.orgUrl argv)] |}
    = (Resolved tt, w1) ->
  getAzureDevOpsToken (store w1) = (Resolved token2, s2) ->
  heap s2 !! userAgentComposer = Some st2 ->
  exists first second w2,
    twoBuilds (getAzureDevOpsClient packageVersion argv getAzureDevOpsToken userAgentComposer)
              between w = (Resolved (first, second), w2) /\
    store w2 = s2 /\
    trace w2 = (trace w1 ++ [EvTokenRequest]) ++ [EvNewWebApi (Cli.orgUrl argv)] /\
    Api.handlerToken (Api.authHandler first) = token1 /\
    Api.handlerToken (Api.authHandler second) = token2 /\
    Api.serverUrl first = Cli.orgUrl argv /\
    Api.serverUrl second = Cli.orgUrl argv /\
    Api.userAgent (Api.requestSettings first) = UserAgent.userAgent st1 /\
    Api.userAgent (Api.requestSettings second) = UserAgent.userAgent st2 /\
    (UserAgent.userAgent st1 <> UserAgent.userAgent st2 ->
     Api.userAgent (Api.requestSettings first) <> Api.userAgent (Api.requestSettings second)).
Proof.
  intros Htok1 Hst1 Hbetween Htok2 Hst2.
  exists (clientOf packageVersion argv token1 st1), (clientOf packageVersion argv token2 st2).
  eexists. split.
  - unfold twoBuilds, bind at 1.
    rewrite (build_resolved w token1 s1 st1 Htok1 Hst1).
    unfold bind at 1. rewrite Hbetween.
    unfold bind. rewrite (build_resolved w1 token2 s2 st2 Htok2 Hst2).
    reflexivity.
  - cbn. repeat split; try (destruct (decide (Cli.authentication argv = "pat")); reflexivity).
    auto.
Qed.

End FactoryFacts.

(** C8: the organization URL is the server URL the operator supplied,
    verbatim, and otherwise https://dev.azure.com/ followed by the
    organization name; every client the factory constructs is bound to
    that URL. *)
Theorem organization_url (env : Cli.Env) (cl : Cli.CommandLine) (argv : Cli.Argv) :
  Cli.parseSync env cl = inr argv ->
  Cli.cl_organization cl = Some (Cli.orgName argv) /\
  (Cli.cl_serverUrl cl = None ->
     Cli.orgUrl argv = "https://dev.azure.com/" +:+ Cli.orgName argv) /\
  (forall url, Cli.cl_serverUrl cl = Some url -> Cli.orgUrl argv = url) /\
  (forall (Ext : Type) packageVersion (provider : Task Ext string) composer
          (w w' : World Ext) client,
     getAzureDevOpsClient packageVersion argv provider composer w = (Resolved client, w') ->
     Api.serverUrl client = Cli.orgUrl argv).
Proof.
  unfold Cli.parseSync. intros Hparse.
  destruct (Cli.cl_organization cl) as [org |]; [| discriminate].
  destruct (decide _); [| discriminate].
  inversion Hparse; subst; clear Hparse. unfold Cli.orgUrl, Cli.orgName. cbn.
  repeat split.
  - intros ->. reflexivity.
  - intros url ->. reflexivity.
  - intros Ext pv provider composer w w' client Hrun.
    destruct (build_inv pv _ provider composer w w' client Hrun) as (tok & st & _ & _ & -> & _).
    reflexivity.
Qed.

(* --------------------------------------------------------------------- *)
(* The command line                                                       *)
(* --------------------------------------------------------------------- *)

Lemma truthy_spec (v : option string) :
  truthy v = true <-> exists s, v = Some s /\ s <> "".
Proof.
  destruct v as [s |]; cbn.
  - rewrite negb_true_iff, String.eqb_neq. split.
    + intros Hs. exists s. auto.
    + intros (s' & [= <-] & Hs). exact Hs.
  - split; [discriminate | intros (s & [=] & _)].
Qed.

Lemma isGitHubCodespaceEnv_spec (env : Cli.Env) :
  Cli.isGitHubCodespaceEnv env = true <->
  env !! "CODESPACES" = Some "true" /\
  exists name, env !! "CODESPACE_NAME" = Some name /\ name <> "".
Proof.
  unfold Cli.isGitHubCodespaceEnv.
  rewrite andb_true_iff, bool_decide_eq_true, truthy_spec. reflexivity.
Qed.

(** C9: the default strategy is azcli exactly in a GitHub Codespace
    (CODESPACES is "true" and CODESPACE_NAME is not empty) and
    interactive otherwise; a command line without the option gets the
    default, and one with the option is accepted exactly when the value
    is one of the five strategy names, which then is the strategy. *)
Theorem default_authentication (env : Cli.Env) :
  (Cli.defaultAuthenticationType env = "azcli" <->
     env !! "CODESPACES" = Some "true" /\
     exists name, env !! "CODESPACE_NAME" = Some name /\ name <> "") /\
  (Cli.defaultAuthenticationType env = "interactive" <->
     ~ (env !! "CODESPACES" = Some "true" /\
        exists name, env !! "CODESPACE_NAME" = Some name /\ name <> "")) /\
  (forall cl org,
     Cli.cl_organization cl = Some org ->
     Cli.cl_authentication cl = None ->
     exists argv, Cli.parseSync env cl = inr argv /\
                  Cli.authentication argv = Cli.defaultAuthenticationType env) /\
  (forall cl org given,
     Cli.cl_organization cl = Some org ->
     Cli.cl_authentication cl = Some given ->
     (given ∈ ["interactive"; "azcli"; "env"; "envvar"; "pat"] ->
        exists argv, Cli.parseSync env cl = inr argv /\ Cli.authentication argv = given) /\
     (given ∉ ["interactive"; "azcli"; "env"; "envvar"; "pat"] ->
        Cli.parseSync env cl = inl (Cli.InvalidChoice "authentication" given))).
Proof.
  pose proof (isGitHubCodespaceEnv_spec env) as Hcs.
  unfold Cli.defaultAuthenticationType.
  split; [| split; [| split]].
  - destruct (Cli.isGitHubCodespaceEnv env); split.
    + intros _. apply Hcs. reflexivity.
    + reflexivity.
    + discriminate.
    + intros H. apply Hcs in H. discriminate.
  - destruct (Cli.isGitHubCodespaceEnv env); split.
    + discriminate.
    + intros H. exfalso. apply H, Hcs. reflexivity.
    + intros _ H. apply Hcs in H. discriminate.
    + reflexivity.
  - intros cl org Horg Hauth.
    unfold Cli.parseSync, Cli.defaultAuthenticationType. rewrite Horg, Hauth. cbn.
    destruct (Cli.isGitHubCodespaceEnv env);
      (destruct (decide _) as [_ | Hout];
       [eexists; split; reflexivity
       | exfalso; apply Hout, list_elem_of_In; cbn; auto 10]).
  - intros cl org given Horg Hauth. unfold Cli.parseSync. rewrite Horg, Hauth. cbn.
    destruct (decide (given ∈ Cli.authenticationChoices)) as [Hin | Hout]; split.
    + intros _. eexists; split; reflexivity.
    + intros Hout. contradiction.
    + intros Hin. contradiction.
    + reflexivity.
Qed.

(** The default strategy is one of the choices in every environment. *)
Lemma default_is_a_choice (env : Cli.Env) :
  Cli.defaultAuthenticationType env ∈ Cli.authenticationChoices.
Proof.
  unfold Cli.defaultAuthenticationType, Cli.authenticationChoices.
  destruct (Cli.isGitHubCodespaceEnv env); apply list_elem_of_In; cbn; auto.
Qed.

(** A command line of option values that names the organization, and
    whose authentication value, if any, is a choice, is parsed: the
    options left out are filled with their defaults. *)
Lemma parse_fills_defaults (env : Cli.Env) (cl : Cli.CommandLine) (org : string) :
  Cli.cl_organization cl = Some org ->
  (forall given, Cli.cl_authentication cl = Some given ->
                 given ∈ Cli.authenticationChoices) ->
  Cli.parseSync env cl
    = inr {| Cli.organization := org;
             Cli.domains := nullish (Cli.cl_domains cl) ["all"];
             Cli.authentication :=
               nullish (Cli.cl_authentication cl) (Cli.defaultAuthenticationType env);
             Cli.tenant := Cli.cl_tenant cl;
             Cli.serverUrl := Cli.cl_serverUrl cl;
             Cli.patToken := Cli.cl_patToken cl;
             Cli.serverVersion := Cli.cl_serverVersion cl |}.
Proof.
  intros Horg Hauth. unfold Cli.parseSync. rewrite Horg.
  destruct (decide _) as [_ | Hout]; [reflexivity |].
  exfalso. apply Hout. destruct (Cli.cl_authentication cl) as [given |]; cbn.
  - apply Hauth. reflexivity.
  - apply default_is_a_choice.
Qed.

(* --------------------------------------------------------------------- *)
(* The domain filter                                                      *)
(* --------------------------------------------------------------------- *)

Section DomainFacts.

Variable registry : list string.

Lemma isWildcard_only (requested : list string) :
  requested <> [] ->
  (forall d, d ∈ requested -> d = Domains.ALL_DOMAINS) ->
  Domains.isWildcard requested = true.
Proof.
  intros Hne Hall. destruct requested as [| d rest]; [congruence |].
  unfold Domains.isWildcard. apply forallb_forall.
  intros x Hx. apply String.eqb_eq. symmetry. apply Hall, list_elem_of_In, Hx.
Qed.

Lemma isWildcard_other (requested : list string) (d : string) :
  d ∈ requested -> d <> Domains.ALL_DOMAINS ->
  Domains.isWildcard requested = false.
Proof.
  intros Hin Hd. destruct (Domains.isWildcard requested) eqn:Hw; [| reflexivity].
  exfalso. apply Hd. destruct requested as [| x rest]; [discriminate |].
  unfold Domains.isWildcard in Hw. rewrite forallb_forall in Hw.
  symmetry. apply String.eqb_eq, Hw, list_elem_of_In, Hin.
Qed.

(** Validation stops at the first name outside the registry. *)
Lemma validate_unknown (requested : list string) (unknown : string) :
  unknown ∈ requested -> unknown ∉ registry ->
  exists offending,
    offending ∈ requested /\ (offending ∉ registry) /\
    Domains.validate registry requested = inl (UnknownDomain offending registry).
Proof.
  induction requested as [| d rest IH]; intros Hin Hout.
  - apply elem_of_nil in Hin. contradiction.
  - cbn. destruct (decide (d ∈ registry)) as [Hd | Hd].
    + apply elem_of_cons in Hin. destruct Hin as [-> | Hin]; [contradiction |].
      destruct (IH Hin Hout) as (offending & Ho1 & Ho2 & ->).
      exists offending. repeat split; auto. apply elem_of_cons. auto.
    + exists d. repeat split; auto. apply elem_of_cons. auto.
Qed.

(** Validation that succeeds enables only names of the registry. *)
Lemma validate_sound (requested : list string) (enabled : gset string) :
  Domains.validate registry requested = inr enabled ->
  forall d, d ∈ enabled <-> d ∈ requested /\ d ∈ registry.
Proof.
  revert enabled. induction requested as [| x rest IH]; cbn; intros enabled Hv d.
  - inversion Hv; subst. rewrite elem_of_nil, elem_of_empty. tauto.
  - destruct (decide (x ∈ registry)) as [Hx | Hx]; [| discriminate].
    destruct (Domains.validate registry rest) as [e | s] eqn:Hrest; [discriminate |].
    inversion Hv; subst. rewrite elem_of_union, elem_of_singleton, elem_of_cons, (IH s eq_refl d).
    split.
    + intros [-> | [H1 H2]]; auto.
    + intros [[-> | H1] H2]; auto.
Qed.

(** C5: a request made of the wildcard token only resolves to the
    whole registry; the token is matched exactly, so any other single
    token is not the wildcard; a parsed command line that had no
    domains option requests the wildcard; and such a command line is
    parsed, with the wildcard filled in, whenever it names the
    organization and its authentication value, if any, is a choice. *)
Theorem wildcard_resolution :
  (forall requested,
     requested <> [] ->
     (forall d, d ∈ requested -> d = "all") ->
     Domains.resolve registry requested = inr (list_to_set registry)) /\
  (forall d, d <> "all" -> Domains.isWildcard [d] = false) /\
  (forall env cl argv,
     Cli.parseSync env cl = inr argv ->
     Cli.cl_domains cl = None ->
     Cli.domains argv = ["all"] /\
     Domains.resolve registry (Cli.domains argv) = inr (list_to_set registry)) /\
  (forall env cl org,
     Cli.cl_organization cl = Some org ->
     Cli.cl_domains cl = None ->
     (forall given, Cli.cl_authentication cl = Some given ->
                    given ∈ ["interactive"; "azcli"; "env"; "envvar"; "pat"]) ->
     exists argv,
       Cli.parseSync env cl = inr argv /\
       Cli.domains argv = ["all"] /\
       Domains.resolve registry (Cli.domains argv) = inr (list_to_set registry)).
Proof.
  split; [| split; [| split]]; cycle 3.
  { intros env cl org Horg Hnone Hauth.
    eexists. split; [exact (parse_fills_defaults env cl org Horg Hauth) |].
    cbn. rewrite Hnone. split; reflexivity. }
  - intros requested Hne Hall. unfold Domains.resolve.
    rewrite (isWildcard_only requested Hne Hall). reflexivity.
  - intros d Hd. apply (isWildcard_other [d] d); [apply elem_of_cons; auto | exact Hd].
  - intros env cl argv Hparse Hnone. unfold Cli.parseSync in Hparse.
    destruct (Cli.cl_organization cl); [| discriminate].
    destruct (decide _); [| discriminate].
    inversion Hparse; subst; clear Hparse. cbn. rewrite Hnone. split; reflexivity.
Qed.

(** C4: a request that contains a name which is neither in the
    registry nor the wildcard does not resolve: the filter fails with
    UnknownDomain, naming a requested value that is outside the
    registry and listing the registry; at start-up the exception is
    uncaught, main() is never entered and the world, its trace of
    calls included, is as it was. *)
Theorem unknown_domain_is_fatal (requested : list string) (unknown : string) :
  unknown ∈ requested ->
  unknown ∉ registry ->
  unknown <> "all" ->
  exists offending,
    offending ∈ requested /\
    (offending ∉ registry) /\
    Domains.resolve registry requested = inl (UnknownDomain offending registry) /\
    (forall enabled, Domains.resolve registry requested <> inr enabled) /\
    (forall (Ext : Type) packageVersion getOrgTenant createAuthenticator
            configureAllTools connect env cl argv (w : World Ext),
       Cli.parseSync env cl = inr argv ->
       Cli.domains argv = requested ->
       program packageVersion (Domains.resolve registry) getOrgTenant createAuthenticator
               configureAllTools connect env cl w
         = (Uncaught (UnknownDomain offending registry), w)).
Proof.
  intros Hin Hout Hne.
  destruct (validate_unknown requested unknown Hin Hout) as (offending & Ho1 & Ho2 & Hv).
  assert (Hres : Domains.resolve registry requested = inl (UnknownDomain offending registry)).
  { unfold Domains.resolve. rewrite (isWildcard_other requested unknown Hin Hne). exact Hv. }
  exists offending. repeat split; auto.
  - intros enabled. rewrite Hres. discriminate.
  - intros Ext pv got ca reg conn env cl argv w Hparse Hdom.
    unfold program. rewrite Hparse, Hdom, Hres. reflexivity.
Qed.

End DomainFacts.

(* --------------------------------------------------------------------- *)
(* Start-up                                                               *)
(* --------------------------------------------------------------------- *)

Lemma lookups_app (t1 t2 : list Event) :
  lookups (t1 ++ t2) = lookups t1 ++ lookups t2.
Proof.
  induction t1 as [| ev rest IH]; [reflexivity |].
  destruct ev; cbn; rewrite IH; reflexivity.
Qed.

Lemma authenticatorCalls_app (t1 t2 : list Event) :
  authenticatorCalls (t1 ++ t2) = authenticatorCalls t1 ++ authenticatorCalls t2.
Proof.
  induction t1 as [| ev rest IH]; [reflexivity |].
  destruct ev; cbn; rewrite IH; reflexivity.
Qed.

Section StartupFacts.

Context {Ext : Type}.
Variable packageVersion : string.
Variable getOrgTenant : string -> Task Ext (option string).
Variable createAuthenticator :
  string -> option string -> option string -> Error + Task Ext string.
Variable configureAllTools :
  Task Ext string -> M Ext Api.WebApi -> M Ext string -> gset string -> Task Ext unit.
Variable connect : Task Ext unit.
Variable argv : Cli.Argv.
Variable enabledDomains : gset string.

Local Abbreviation run :=
  (main packageVersion getOrgTenant createAuthenticator configureAllTools connect
        argv enabledDomains).
Local Abbreviation logged :=
  (EvLogInfo (Cli.orgUrl argv) (Cli.authentication argv)).
Local Abbreviation asked := (EvGetOrgTenant (Cli.orgName argv)).
Local Abbreviation created found :=
  (EvCreateAuthenticator (Cli.authentication argv)
     (nullish_opt found (Cli.tenant argv)) (Cli.patToken argv)).
Local Abbreviation registered := (EvConfigureAllTools enabledDomains).
Local Abbreviation registration w authenticator :=
  (configureAllTools authenticator
     (getAzureDevOpsClient packageVersion argv authenticator
        (allocComposer packageVersion (store w)).1)
     (readUserAgent (allocComposer packageVersion (store w)).1)
     enabledDomains).

(** main() when the tenant lookup rejects. *)
Lemma main_lookup_rejected (w : World Ext) e s1 :
  getOrgTenant (Cli.orgName argv) (allocComposer packageVersion (store w)).2 = (Rejected e, s1) ->
  run w = (Rejected e, {| store := s1; trace := (trace w ++ [logged]) ++ [asked] |}).
Proof.
  intros Hlook. unfold main. unfold_async. cbn in *. rewrite Hlook. reflexivity.
Qed.

(** main() when the authenticator factory throws. *)
Lemma main_authenticator_rejected (w : World Ext) found s1 e :
  getOrgTenant (Cli.orgName argv) (allocComposer packageVersion (store w)).2
    = (Resolved found, s1) ->
  createAuthenticator (Cli.authentication argv) (nullish_opt found (Cli.tenant argv))
                      (Cli.patToken argv) = inl e ->
  run w = (Rejected e,
           {| store := s1;
              trace := ((trace w ++ [logged]) ++ [asked])
                       ++ [EvCreateAuthenticator (Cli.authentication argv)
                             (nullish_opt found (Cli.tenant argv)) (Cli.patToken argv)] |}).
Proof.
  intros Hlook Hcreate. unfold main. unfold_async. cbn in *.
  rewrite Hlook. cbn. rewrite Hcreate. reflexivity.
Qed.

(** main() when the tool registrar throws. *)
Lemma main_registrar_rejected (w : World Ext) found s1 authenticator e s2 :
  getOrgTenant (Cli.orgName argv) (allocComposer packageVersion (store w)).2
    = (Resolved found, s1) ->
  createAuthenticator (Cli.authentication argv) (nullish_opt found (Cli.tenant argv))
                      (Cli.patToken argv) = inr authenticator ->
  registration w authenticator s1 = (Rejected e, s2) ->
  run w = (Rejected e,
           {| store := s2;
              trace := (((trace w ++ [logged]) ++ [asked]) ++ [created found])
                       ++ [registered] |}).
Proof.
  intros Hlook Hcreate Hreg. unfold main. unfold_async. cbn in *.
  rewrite Hlook. cbn. rewrite Hcreate. cbn. rewrite Hreg. reflexivity.
Qed.

(** main() when the server cannot be connected. *)
Lemma main_connect_rejected (w : World Ext) found s1 authenticator s2 e s3 :
  getOrgTenant (Cli.orgName argv) (allocComposer packageVersion (store w)).2
    = (Resolved found, s1) ->
  createAuthenticator (Cli.authentication argv) (nullish_opt found (Cli.tenant argv))
                      (Cli.patToken argv) = inr authenticator ->
  registration w authenticator s1 = (Resolved tt, s2) ->
  connect s2 = (Rejected e, s3) ->
  run w = (Rejected e,
           {| store := s3;
              trace := ((((trace w ++ [logged]) ++ [asked]) ++ [created found])
                       ++ [registered]) ++ [EvConnect] |}).
Proof.
  intros Hlook Hcreate Hreg Hconn. unfold main. unfold_async. cbn in *.
  rewrite Hlook. cbn. rewrite Hcreate. cbn. rewrite Hreg. cbn. rewrite Hconn. reflexivity.
Qed.

(** main() when everything succeeds: the registrar receives the
    enabled domains and a factory closed over the authenticator and
    the composer just allocated, then the server is connected. *)
Lemma main_serving (w : World Ext) found s1 authenticator s2 s3 :
  getOrgTenant (Cli.orgName argv) (allocComposer packageVersion (store w)).2
    = (Resolved found, s1) ->
  createAuthenticator (Cli.authentication argv) (nullish_opt found (Cli.tenant argv))
                      (Cli.patToken argv) = inr authenticator ->
  registration w authenticator s1 = (Resolved tt, s2) ->
  connect s2 = (Resolved tt, s3) ->
  exists r,
    run w = (Resolved r,
             {| store := s3;
                trace := ((((trace w ++ [logged]) ++ [asked])
                         ++ [EvCreateAuthenticator (Cli.authentication argv)
                               (nullish_opt found (Cli.tenant argv)) (Cli.patToken argv)])
                         ++ [EvConfigureAllTools enabledDomains]) ++ [EvConnect] |}) /\
    run_composer r = (allocComposer packageVersion (store w)).1 /\
    run_authenticator r = authenticator /\
    run_enabledDomains r = enabledDomains /\
    run_clientFactory r
      = getAzureDevOpsClient packageVersion argv authenticator (run_composer r).
Proof.
  intros Hlook Hcreate Hreg Hconn. unfold main. unfold_async. cbn in *.
  rewrite Hlook. cbn. rewrite Hcreate. cbn. rewrite Hreg. cbn. rewrite Hconn.
  eexists. split; [reflexivity |].
  cbn. auto.
Qed.

(** Once the authenticator exists, main() calls the registrar, and
    connects only when the registrar returned. *)
Lemma main_trace_after_authenticator (w : World Ext) found s1 authenticator :
  getOrgTenant (Cli.orgName argv) (allocComposer packageVersion (store w)).2
    = (Resolved found, s1) ->
  createAuthenticator (Cli.authentication argv) (nullish_opt found (Cli.tenant argv))
                      (Cli.patToken argv) = inr authenticator ->
  exists tail,
    trace (run w).2
      = (((trace w ++ [logged]) ++ [asked]) ++ [created found]) ++ tail /\
    (tail = [registered] \/ tail = [registered; EvConnect]).
Proof.
  intros Hlook Hcreate.
  destruct (registration w authenticator s1) as [[[] | e] s2] eqn:Hreg.
  - destruct (connect s2) as [[[] | e] s3] eqn:Hconn.
    + destruct (main_serving w found s1 authenticator s2 s3 Hlook Hcreate Hreg Hconn)
        as (r & -> & _).
      exists [registered; EvConnect]. cbn. rewrite <- !app_assoc. auto.
    + rewrite (main_connect_rejected w found s1 authenticator s2 e s3 Hlook Hcreate Hreg Hconn).
      exists [registered; EvConnect]. cbn. rewrite <- !app_assoc. auto.
  - rewrite (main_registrar_rejected w found s1 authenticator e s2 Hlook Hcreate Hreg).
    exists [registered]. cbn. auto.
Qed.

(** C7, amended: the tenant is resolved once at start-up, by one
    lookup keyed by the organization name; the tenant handed to the
    authenticator factory is the looked-up one when the lookup yields
    a value, and the operator's explicit tenant otherwise. *)
Theorem tenant_resolution (w : World Ext) found s1 :
  getOrgTenant (Cli.orgName argv) (allocComposer packageVersion (store w)).2
    = (Resolved found, s1) ->
  exists tenantId,
    tenantId = match found with
               | Some looked => Some looked
               | None => Cli.tenant argv
               end /\
    lookups (trace (main packageVersion getOrgTenant createAuthenticator
                         configureAllTools connect argv enabledDomains w).2)
      = lookups (trace w) ++ [Cli.orgName argv] /\
    authenticatorCalls (trace (main packageVersion getOrgTenant createAuthenticator
                                    configureAllTools connect argv enabledDomains w).2)
      = authenticatorCalls (trace w)
        ++ [(Cli.authentication argv, tenantId, Cli.patToken argv)].
Proof.
  intros Hlook. eexists. split; [reflexivity |].
  fold (nullish_opt found (Cli.tenant argv)).
  destruct (createAuthenticator (Cli.authentication argv)
              (nullish_opt found (Cli.tenant argv)) (Cli.patToken argv))
    as [e | authenticator] eqn:Hcreate.
  - rewrite (main_authenticator_rejected w found s1 e Hlook Hcreate). cbn.
    rewrite !lookups_app, !authenticatorCalls_app. cbn.
    rewrite !app_nil_r. split; reflexivity.
  - destruct (main_trace_after_authenticator w found s1 authenticator Hlook Hcreate)
      as (tail & -> & [-> | ->]);
      rewrite !lookups_app, !authenticatorCalls_app; cbn;
      rewrite !app_nil_r; split; reflexivity.
Qed.

(** main() only ever appends to the trace, and what it appends holds
    no token request. *)
Lemma main_appends (w : World Ext) :
  exists new,
    trace (run w).2 = trace w ++ new /\
    filter (fun ev => isTokenRequest ev = true) new = [].
Proof.
  destruct (getOrgTenant (Cli.orgName argv) (allocComposer packageVersion (store w)).2)
    as [[found | e] s1] eqn:Hlook.
  - destruct (createAuthenticator (Cli.authentication argv)
                (nullish_opt found (Cli.tenant argv)) (Cli.patToken argv))
      as [e | authenticator] eqn:Hcreate.
    + rewrite (main_authenticator_rejected w found s1 e Hlook Hcreate). cbn.
      rewrite <- !app_assoc. eexists. split; reflexivity.
    + destruct (main_trace_after_authenticator w found s1 authenticator Hlook Hcreate)
        as (tail & -> & [-> | ->]);
        rewrite <- !app_assoc; eexists; split; reflexivity.
  - rewrite (main_lookup_rejected w e s1 Hlook). cbn.
    rewrite <- !app_assoc. eexists. split; reflexivity.
Qed.

End StartupFacts.

(* --------------------------------------------------------------------- *)
(* The authenticator factory                                              *)
(* --------------------------------------------------------------------- *)

Lemma createAuthenticator_pat_missing {Ext : Type} (flows : Auth.Flows Ext)
    (tenantId credential : option string) :
  credential = None \/ credential = Some "" ->
  Auth.createAuthenticator flows "pat" tenantId credential = inl MissingCredential.
Proof.
  intros [-> | ->]; reflexivity.
Qed.

Lemma createAuthenticator_pat_present {Ext : Type} (flows : Auth.Flows Ext)
    (tenantId : option string) (credential : string) :
  credential <> "" ->
  Auth.createAuthenticator flows "pat" tenantId (Some credential)
    = inr (Auth.staticProvider credential).
Proof.
  intros Hne. unfold Auth.createAuthenticator.
  change (Auth.strategyOfName "pat") with (Some Auth.Pat). cbn.
  destruct (String.eqb credential "") eqn:Heq; [| reflexivity].
  apply String.eqb_eq in Heq. contradiction.
Qed.

(** C6: with strategy pat and a static credential that is absent or
    empty, the authenticator factory fails with MissingCredential when
    it is called, not when a token is first requested; start-up then
    never reaches serving: no token is requested, nothing is registered
    and the server is not connected, and when the domain filter and the
    tenant lookup succeed the process logs MissingCredential and exits
    with code 1. *)
Theorem pat_requires_credential {Ext : Type} (flows : Auth.Flows Ext)
    (tenantId credential : option string) :
  credential = None \/ credential = Some "" ->
  Auth.createAuthenticator flows "pat" tenantId credential = inl MissingCredential /\
  (forall packageVersion DomainsManager getOrgTenant configureAllTools connect
          env cl argv (w : World Ext),
     Cli.parseSync env cl = inr argv ->
     Cli.authentication argv = "pat" ->
     Cli.patToken argv = credential ->
     exists status w' new,
       program packageVersion DomainsManager getOrgTenant (Auth.createAuthenticator flows)
               configureAllTools connect env cl w = (status, w') /\
       trace w' = trace w ++ new /\
       (forall r, status <> Serving r) /\
       filter (fun ev => isTokenRequest ev = true) new = [] /\
       filter (fun ev => isRegistration ev = true) new = [] /\
       filter (fun ev => isConnect ev = true) new = [] /\
       (forall enabled found s1,
          DomainsManager (Cli.domains argv) = inr enabled ->
          getOrgTenant (Cli.orgName argv) (allocComposer packageVersion (store w)).2
            = (Resolved found, s1) ->
          status = FatalExit MissingCredential /\
          new = [EvLogInfo (Cli.orgUrl argv) "pat";
                 EvGetOrgTenant (Cli.orgName argv);
                 EvCreateAuthenticator "pat" (nullish_opt found (Cli.tenant argv)) credential;
                 EvLogError MissingCredential;
                 EvExit 1])).
Proof.
  intros Hcred. split; [exact (createAuthenticator_pat_missing flows tenantId credential Hcred) |].
  intros pv DM got reg conn env cl argv w Hparse Hpat Hpatok.
  unfold program. rewrite Hparse.
  destruct (DM (Cli.domains argv)) as [e | enabled] eqn:Hdom.
  - exists (Uncaught e), w, []. rewrite app_nil_r.
    repeat split; try reflexivity; try discriminate.
  - destruct (got (Cli.orgName argv) (allocComposer pv (store w)).2)
      as [[found | e] s1] eqn:Hlook.
    + pose proof (createAuthenticator_pat_missing flows
                    (nullish_opt found (Cli.tenant argv)) credential Hcred) as Hmiss.
      rewrite <- Hpat, <- Hpatok in Hmiss.
      rewrite (main_authenticator_rejected pv got _ reg conn argv enabled w found s1 _
                 Hlook Hmiss).
      eexists _, _, _. split; [reflexivity |]. cbn. rewrite <- !app_assoc. cbn.
      split; [reflexivity |].
      rewrite Hpat, Hpatok.
      split; [discriminate |]. do 3 (split; [reflexivity |]).
      intros enabled' found' s1' [= <-] [= <- <-]. split; reflexivity.
    + rewrite (main_lookup_rejected pv got _ reg conn argv enabled w e s1 Hlook).
      eexists _, _, _. split; [reflexivity |]. cbn. rewrite <- !app_assoc. cbn.
      split; [reflexivity |].
      repeat split; try reflexivity; try discriminate.
Qed.

(* --------------------------------------------------------------------- *)
(* The properties at a concrete deployment                                *)
(* --------------------------------------------------------------------- *)

Lemma client_credential_scheme_witness :
  Demo.issuing (store Demo.servingWorld) = (Resolved "token-a", Demo.storeAfterFirst) /\
  heap Demo.storeAfterFirst !! Demo.composerRef = Some (UserAgent.create Demo.version) /\
  exists client w',
    getAzureDevOpsClient Demo.version (Demo.argvWith "pat" None) Demo.issuing
                         Demo.composerRef Demo.servingWorld = (Resolved client, w') /\
    Api.authHandler client = Api.PersonalAccessTokenHandler "token-a".
Proof.
  split; [reflexivity |]. split; [reflexivity |].
  destruct (client_credential_scheme Demo.version (Demo.argvWith "pat" None) Demo.issuing
              Demo.composerRef Demo.servingWorld "token-a" Demo.storeAfterFirst
              (UserAgent.create Demo.version) eq_refl eq_refl)
    as (client & w' & Hrun & Hpat & _).
  exists client, w'. split; [exact Hrun | exact (Hpat eq_refl)].
Defined.

Lemma provider_failure_propagates_witness :
  Demo.failing (store Demo.servingWorld)
    = (Rejected (AuthFailed "no active session"), store Demo.servingWorld) /\
  exists w',
    getAzureDevOpsClient Demo.version (Demo.argvWith "azcli" None) Demo.failing
                         Demo.composerRef Demo.servingWorld
      = (Rejected (AuthFailed "no active session"), w') /\
    trace w' = [EvTokenRequest].
Proof.
  split; [reflexivity |].
  destruct (provider_failure_propagates Demo.version (Demo.argvWith "azcli" None) Demo.failing
              Demo.composerRef Demo.servingWorld (AuthFailed "no active session")
              (store Demo.servingWorld) eq_refl)
    as (w' & Hrun & _ & Htrace & _).
  exists w'. split; [exact Hrun | exact Htrace].
Defined.

Lemma builds_are_independent_witness :
  Demo.handshake {| store := Demo.storeAfterFirst;
                    trace := [EvTokenRequest; EvNewWebApi "https://dev.azure.com/contoso"] |}
    = (Resolved tt, Demo.worldAfterHandshake) /\
  exists first second w2,
    twoBuilds (getAzureDevOpsClient Demo.version (Demo.argvWith "interactive" None)
                 Demo.issuing Demo.composerRef)
              Demo.handshake Demo.servingWorld = (Resolved (first, second), w2) /\
    Api.authHandler first = Api.BearerHandler "token-a" /\
    Api.authHandler second = Api.BearerHandler "token-b" /\
    Api.userAgent (Api.requestSettings first) = "AzureDevOps.MCP/1.2.3" /\
    Api.userAgent (Api.requestSettings second) = "AzureDevOps.MCP/1.2.3 (agent-x/0.1)" /\
    Api.userAgent (Api.requestSettings first) <> Api.userAgent (Api.requestSettings second).
Proof.
  split; [reflexivity |].
  destruct (builds_are_independent Demo.version (Demo.argvWith "interactive" None)
              Demo.issuing Demo.composerRef Demo.servingWorld Demo.handshake
              "token-a" Demo.storeAfterFirst (UserAgent.create Demo.version)
              Demo.worldAfterHandshake
              "token-b" Demo.storeAfterSecond
              (UserAgent.appendMcpClientInfo (Some Demo.agent) (UserAgent.create Demo.version))
              eq_refl eq_refl eq_refl eq_refl eq_refl)
    as (first & second & w2 & Hrun & _ & _ & Ht1 & Ht2 & _ & _ & Hu1 & Hu2 & Hdiff).
  exists first, second, w2.
  unfold twoBuilds, bind in Hrun. vm_compute in Hrun.
  inversion Hrun; subst; clear Hrun.
  repeat split; try reflexivity. discriminate.
Defined.

Lemma client_product_descriptor_witness :
  getAzureDevOpsClient Demo.version (Demo.argvWith "envvar" None) Demo.issuing
                       Demo.composerRef Demo.servingWorld
    = (Resolved (clientOf Demo.version (Demo.argvWith "envvar" None) "token-a"
                          (UserAgent.create Demo.version)),
       {| store := Demo.storeAfterFirst;
          trace := [EvTokenRequest; EvNewWebApi "https://dev.azure.com/contoso"] |}) /\
  Api.productName (Api.requestSettings
                     (clientOf Demo.version (Demo.argvWith "envvar" None) "token-a"
                               (UserAgent.create Demo.version))) = "AzureDevOps.MCP" /\
  Api.productVersion (Api.requestSettings
                        (clientOf Demo.version (Demo.argvWith "envvar" None) "token-a"
                                  (UserAgent.create Demo.version))) = "1.2.3".
Proof.
  split; [reflexivity |].
  destruct (client_product_descriptor Demo.version (Demo.argvWith "envvar" None) Demo.issuing
              Demo.composerRef Demo.servingWorld _ _ eq_refl)
    as (Hname & Hversion & _).
  split; [exact Hname | exact Hversion].
Defined.

Lemma organization_url_witness :
  Cli.parseSync ∅ (Demo.commandLine None None) = inr (Demo.argvWith "interactive" None) /\
  Cli.orgUrl (Demo.argvWith "interactive" None) = "https://dev.azure.com/contoso".
Proof.
  split; [reflexivity |].
  destruct (organization_url ∅ (Demo.commandLine None None)
              (Demo.argvWith "interactive" None))
    as (_ & Hdefault & _); [reflexivity |].
  exact (Hdefault eq_refl).
Defined.

Lemma default_authentication_witness :
  Demo.codespace !! "CODESPACES" = Some "true" /\
  Demo.codespace !! "CODESPACE_NAME" = Some "fuzzy-space" /\
  Cli.defaultAuthenticationType Demo.codespace = "azcli".
Proof.
  split; [reflexivity |]. split; [reflexivity |].
  apply (default_authentication Demo.codespace).
  split; [reflexivity |]. exists "fuzzy-space". split; [reflexivity | discriminate].
Defined.

Lemma wildcard_resolution_witness :
  Cli.cl_organization (Demo.commandLine None None) = Some "contoso" /\
  Cli.cl_domains (Demo.commandLine None None) = None /\
  Cli.parseSync Demo.codespace (Demo.commandLine None None)
    = inr (Demo.argvWith "azcli" None) /\
  Cli.domains (Demo.argvWith "azcli" None) = ["all"] /\
  Domains.resolve Demo.registry (Cli.domains (Demo.argvWith "azcli" None))
    = inr (list_to_set Demo.registry) /\
  Domains.resolve Demo.registry ["all"; "all"] = inr (list_to_set Demo.registry).
Proof.
  destruct (wildcard_resolution Demo.registry) as (Honly & _ & _ & Hdefault).
  destruct (Hdefault Demo.codespace (Demo.commandLine None None) "contoso" eq_refl eq_refl)
    as (argv & Hparse & Hdomains & Hresolve).
  { intros given Hgiven. discriminate Hgiven. }
  assert (Hargv : argv = Demo.argvWith "azcli" None).
  { assert (Hrun : Cli.parseSync Demo.codespace (Demo.commandLine None None)
                   = inr (Demo.argvWith "azcli" None)) by reflexivity.
    rewrite Hrun in Hparse. injection Hparse as <-. reflexivity. }
  subst argv.
  do 2 (split; [reflexivity |]). split; [exact Hparse |].
  split; [exact Hdomains |]. split; [exact Hresolve |].
  apply Honly.
  - discriminate.
  - intros d Hd. apply list_elem_of_In in Hd. cbn in Hd.
    destruct Hd as [<- | [<- | []]]; reflexivity.
Defined.

Lemma unknown_domain_is_fatal_witness :
  exists offending,
    Domains.resolve Demo.registry ["repositories"; "bogus"]
      = inl (UnknownDomain offending Demo.registry).
Proof.
  destruct (unknown_domain_is_fatal Demo.registry ["repositories"; "bogus"] "bogus")
    as (offending & _ & _ & Hres & _).
  - apply list_elem_of_In. cbn. auto.
  - intros Hin. apply list_elem_of_In in Hin. cbn in Hin. intuition discriminate.
  - discriminate.
  - exists offending. exact Hres.
Defined.

Lemma pat_requires_credential_witness :
  Auth.createAuthenticator Demo.flows "pat" (Some "tenant-of-org") None
    = inl MissingCredential.
Proof.
  apply (pat_requires_credential Demo.flows (Some "tenant-of-org") None).
  left. reflexivity.
Defined.

Lemma tenant_resolution_witness :
  Demo.tenantUnknown "contoso" (allocComposer Demo.version (store Demo.emptyWorld)).2
    = (Resolved None, (allocComposer Demo.version (store Demo.emptyWorld)).2) /\
  authenticatorCalls
    (trace (main Demo.version Demo.tenantUnknown (Auth.createAuthenticator Demo.flows)
                 Demo.registrar Demo.connect
                 (Demo.argvWith "interactive" None) ∅ Demo.emptyWorld).2)
    = [("interactive", Some "tenant-of-operator", None)].
Proof.
  split; [reflexivity |].
  destruct (tenant_resolution Demo.version Demo.tenantUnknown
              (Auth.createAuthenticator Demo.flows)
                 Demo.registrar Demo.connect (Demo.argvWith "interactive" None) ∅
              Demo.emptyWorld None _ eq_refl)
    as (tenantId & -> & _ & Hcalls).
  exact Hcalls.
Defined.

(** C7 as stated does not hold: when the lookup knows the organization
    and the operator also supplied a tenant, the authenticator factory
    receives the looked-up tenant, not the operator's. *)
Lemma explicit_tenant_not_preferred :
  Cli.tenant (Demo.argvWith "interactive" None) = Some "tenant-of-operator" /\
  authenticatorCalls
    (trace (main Demo.version Demo.tenantKnown (Auth.createAuthenticator Demo.flows)
                 Demo.registrar Demo.connect
                 (Demo.argvWith "interactive" None) ∅ Demo.emptyWorld).2)
    = [("interactive", Some "tenant-of-org", None)] /\
  authenticatorCalls
    (trace (main Demo.version Demo.tenantKnown (Auth.createAuthenticator Demo.flows)
                 Demo.registrar Demo.connect
                 (Demo.argvWith "interactive" None) ∅ Demo.emptyWorld).2)
    <> [("interactive",
         explicitTenantFirst (Cli.tenant (Demo.argvWith "interactive" None))
                             (Some "tenant-of-org"),
         None)].
Proof.
  split; [reflexivity |]. split; [vm_compute; reflexivity |].
  vm_compute. intros H. discriminate H.
Qed.


(* --------------------------------------------------------------------- *)
(* Further runs of the definitions                                        *)
(* --------------------------------------------------------------------- *)

(** Duplicate names in a request collapse to one enabled entry. *)
Example resolve_collapses_duplicates :
  Domains.resolve Demo.registry ["repositories"; "builds"; "repositories"]
    = inr ({["repositories"]} ∪ {["builds"]}).
Proof. vm_compute. reflexivity. Qed.

(** The wildcard is matched exactly: another casing is an unknown name. *)
Example resolve_wildcard_is_case_sensitive :
  Domains.resolve Demo.registry ["ALL"] = inl (UnknownDomain "ALL" Demo.registry).
Proof. reflexivity. Qed.

(** A strategy name outside the choices is refused by the parser. *)
Example parse_refuses_unknown_strategy :
  Cli.parseSync ∅ (Demo.commandLine (Some "oauth") None)
    = inl (Cli.InvalidChoice "authentication" "oauth").
Proof. reflexivity. Qed.

(** With a static credential the pat provider answers with it and leaves
    the store alone. *)
Example pat_provider_is_static (s : Store Demo.Ext) :
  exists provider,
    Auth.createAuthenticator Demo.flows "pat" None (Some "abc123") = inr provider /\
    provider s = (Resolved "abc123", s).
Proof.
  exists (Auth.staticProvider "abc123"). split; reflexivity.
Qed.

(** Start-up to serving, then the factory that main() handed to the
    registrar, invoked before and after the handshake callback that
    main() installed: both reach the one composer main() allocated. *)
Example served_factory_sees_handshake :
  exists r w first second w',
    program Demo.version (Domains.resolve Demo.registry) Demo.tenantKnown
            (Auth.createAuthenticator Demo.flows)
                 Demo.registrar Demo.connect ∅ (Demo.commandLine None None)
            Demo.emptyWorld = (Serving r, w) /\
    run_enabledDomains r = list_to_set Demo.registry /\
    twoBuilds (run_clientFactory r) (run_oninitialized r (Some Demo.agent)) w
      = (Resolved (first, second), w') /\
    Api.userAgent (Api.requestSettings first) = "AzureDevOps.MCP/1.2.3" /\
    Api.userAgent (Api.requestSettings second) = "AzureDevOps.MCP/1.2.3 (agent-x/0.1)" /\
    Api.authHandler first = Api.BearerHandler "token-a" /\
    Api.authHandler second = Api.BearerHandler "token-b".
Proof.
  eexists _, _, _, _, _. split; [vm_compute; reflexivity |].
  split; [reflexivity |]. split; [vm_compute; reflexivity |].
  repeat split.
Qed.




(* ===================================================================== *)
(* Further properties of index.ts                                         *)
(* ===================================================================== *)

Lemma countEvents_app (kind : Event -> bool) (t1 t2 : list Event) :
  countEvents kind (t1 ++ t2) = countEvents kind t1 + countEvents kind t2.
Proof.
  unfold countEvents. rewrite List.filter_app, length_app. reflexivity.
Qed.

(* --------------------------------------------------------------------- *)
(* The command line                                                       *)
(* --------------------------------------------------------------------- *)


(** X2: codespace detection looks at CODESPACES and CODESPACE_NAME only:
    setting or removing any other environment variable leaves the
    default strategy as it was. *)
Theorem default_ignores_other_variables (env : Cli.Env) (name value : string) :
  name <> "CODESPACES" ->
  name <> "CODESPACE_NAME" ->
  Cli.defaultAuthenticationType (<[name := value]> env) = Cli.defaultAuthenticationType env /\
  Cli.defaultAuthenticationType (delete name env) = Cli.defaultAuthenticationType env.
Proof.
  intros H1 H2. unfold Cli.defaultAuthenticationType, Cli.isGitHubCodespaceEnv, Cli.Env in *.
  rewrite !lookup_insert_ne, !lookup_delete_ne by congruence. split; reflexivity.
Qed.

Lemma default_ignores_other_variables_witness :
  Cli.defaultAuthenticationType (<["HOME" := "/home/dev"]> Demo.codespace) = "azcli".
Proof.
  rewrite (proj1 (default_ignores_other_variables Demo.codespace "HOME" "/home/dev"
                    ltac:(discriminate) ltac:(discriminate))).
  reflexivity.
Defined.

Lemma append_cancel_prefix (prefix a b : string) :
  prefix +:+ a = prefix +:+ b -> a = b.
Proof.
  induction prefix as [| c rest IH]; cbn; intros Heq; [exact Heq |].
  injection Heq as Heq. exact (IH Heq).
Qed.

(** X3: without a server URL the organization URL identifies the
    organization: two command lines get the same URL only for the same
    organization name. *)
Theorem default_url_identifies_organization (argv1 argv2 : Cli.Argv) :
  Cli.serverUrl argv1 = None ->
  Cli.serverUrl argv2 = None ->
  Cli.orgUrl argv1 = Cli.orgUrl argv2 ->
  Cli.orgName argv1 = Cli.orgName argv2.
Proof.
  unfold Cli.orgUrl. intros -> -> Heq. cbn in Heq.
  exact (append_cancel_prefix _ _ _ Heq).
Qed.

Lemma default_url_identifies_organization_witness :
  Cli.orgUrl (Demo.argvWith "pat" None) = Cli.orgUrl (Demo.argvWith "azcli" None) /\
  Cli.orgName (Demo.argvWith "pat" None) = Cli.orgName (Demo.argvWith "azcli" None).
Proof.
  split; [reflexivity |].
  apply (default_url_identifies_organization (Demo.argvWith "pat" None)
           (Demo.argvWith "azcli" None)); reflexivity.
Defined.

(* --------------------------------------------------------------------- *)
(* Invocations of the client factory in a row                             *)
(* --------------------------------------------------------------------- *)

Lemma bind_resolved_inv {Ext A B : Type} (m : M Ext A) (k : A -> M Ext B)
    (w w' : World Ext) (b : B) :
  bind m k w = (Resolved b, w') ->
  exists a w1, m w = (Resolved a, w1) /\ k a w1 = (Resolved b, w').
Proof.
  unfold bind. destruct (m w) as [[a | e] w1]; [| discriminate].
  intros Hk. exists a, w1. split; [reflexivity | exact Hk].
Qed.

Section FactoryRuns.

Context {Ext : Type}.
Variable packageVersion : string.
Variable argv : Cli.Argv.
Variable getAzureDevOpsToken : Task Ext string.
Variable userAgentComposer : Ref.

Local Abbreviation build :=
  (getAzureDevOpsClient packageVersion argv getAzureDevOpsToken userAgentComposer).

(** X5: whenever [n] invocations of the factory in a row all resolve,
    they yield [n] clients, and [n] more token requests and [n] more
    client constructions were made, one of each per invocation: no
    invocation reuses the token or the client of an earlier one.  Every
    client is bound to the organization URL and carries the product
    name and the package version. *)
Theorem every_build_requests_a_token (n : nat) (w w' : World Ext)
    (clients : list Api.WebApi) :
  buildMany build n w = (Resolved clients, w') ->
  length clients = n /\
  countEvents isTokenRequest (trace w') = countEvents isTokenRequest (trace w) + n /\
  countEvents isNewWebApi (trace w') = countEvents isNewWebApi (trace w) + n /\
  Forall (fun client =>
            Api.serverUrl client = Cli.orgUrl argv /\
            Api.productName (Api.requestSettings client) = "AzureDevOps.MCP" /\
            Api.productVersion (Api.requestSettings client) = packageVersion)
         clients.
Proof.
  revert w clients. induction n as [| k IH]; intros w clients Hrun.
  - cbn in Hrun. unfold ret in Hrun. injection Hrun as <- <-.
    cbn. rewrite !Nat.add_0_r. repeat split; auto.
  - cbn [buildMany] in Hrun.
    apply bind_resolved_inv in Hrun. destruct Hrun as (client & w1 & Hbuild & Hrun).
    apply bind_resolved_inv in Hrun. destruct Hrun as (rest & w2 & Hrest & Hret).
    unfold ret in Hret. injection Hret as <- <-.
    destruct (build_inv _ _ _ _ w w1 client Hbuild)
      as (accessToken & st & _ & _ & -> & Htrace).
    destruct (IH w1 rest Hrest) as (Hlen & Htokens & Hclients & Hall).
    split; [cbn; rewrite Hlen; reflexivity |].
    split.
    { rewrite Htokens, Htrace, !countEvents_app. cbn. lia. }
    split.
    { rewrite Hclients, Htrace, !countEvents_app. cbn. lia. }
    constructor; [cbn; auto | exact Hall].
Qed.

End FactoryRuns.

Lemma every_build_requests_a_token_witness :
  exists clients w',
    buildMany (getAzureDevOpsClient Demo.version (Demo.argvWith "env" None) Demo.issuing
                 Demo.composerRef) 3 Demo.servingWorld = (Resolved clients, w') /\
    length clients = 3 /\
    countEvents isTokenRequest (trace w') = 3 /\
    countEvents isNewWebApi (trace w') = 3.
Proof.
  destruct (buildMany (getAzureDevOpsClient Demo.version (Demo.argvWith "env" None)
                         Demo.issuing Demo.composerRef) 3 Demo.servingWorld)
    as [[clients | e] w'] eqn:Hrun.
  - destruct (every_build_requests_a_token Demo.version (Demo.argvWith "env" None)
                Demo.issuing Demo.composerRef 3 Demo.servingWorld w' clients Hrun)
      as (Hlen & Htokens & Hclients & _).
    exists clients, w'. split; [reflexivity |]. split; [exact Hlen |].
    split; [exact Htokens | exact Hclients].
  - vm_compute in Hrun. discriminate Hrun.
Defined.

(* --------------------------------------------------------------------- *)
(* Start-up, path by path                                                 *)
(* --------------------------------------------------------------------- *)

Section StartupPaths.

Context {Ext : Type}.
Variable packageVersion : string.
Variable DomainsManager : list string -> Error + gset string.
Variable getOrgTenant : string -> Task Ext (option string).
Variable createAuthenticator :
  string -> option string -> option string -> Error + Task Ext string.
Variable configureAllTools :
  Task Ext string -> M Ext Api.WebApi -> M Ext string -> gset string -> Task Ext unit.
Variable connect : Task Ext unit.

Local Abbreviation start :=
  (program packageVersion DomainsManager getOrgTenant createAuthenticator
           configureAllTools connect).
Local Abbreviation run :=
  (main packageVersion getOrgTenant createAuthenticator configureAllTools connect).
Local Abbreviation calls argv enabled found :=
  [EvLogInfo (Cli.orgUrl argv) (Cli.authentication argv);
   EvGetOrgTenant (Cli.orgName argv);
   EvCreateAuthenticator (Cli.authentication argv)
     (nullish_opt found (Cli.tenant argv)) (Cli.patToken argv);
   EvConfigureAllTools enabled;
   EvConnect].
Local Abbreviation handed argv enabled w authenticator :=
  {| run_composer := (allocComposer packageVersion (store w)).1;
     run_oninitialized :=
       fun info => writeClientInfo (allocComposer packageVersion (store w)).1 info;
     run_authenticator := authenticator;
     run_clientFactory :=
       getAzureDevOpsClient packageVersion argv authenticator
                            (allocComposer packageVersion (store w)).1;
     run_userAgent := readUserAgent (allocComposer packageVersion (store w)).1;
     run_enabledDomains := enabled |}.
Local Abbreviation registration argv enabled w authenticator :=
  (configureAllTools authenticator
     (getAzureDevOpsClient packageVersion argv authenticator
        (allocComposer packageVersion (store w)).1)
     (readUserAgent (allocComposer packageVersion (store w)).1)
     enabled).

(** main() when everything succeeds, with the record it hands over
    written out. *)
Lemma main_serving_record (argv : Cli.Argv) (enabled : gset string) (w : World Ext)
    found s1 authenticator s2 s3 :
  getOrgTenant (Cli.orgName argv) (allocComposer packageVersion (store w)).2
    = (Resolved found, s1) ->
  createAuthenticator (Cli.authentication argv) (nullish_opt found (Cli.tenant argv))
                      (Cli.patToken argv) = inr authenticator ->
  registration argv enabled w authenticator s1 = (Resolved tt, s2) ->
  connect s2 = (Resolved tt, s3) ->
  run argv enabled w
    = (Resolved (handed argv enabled w authenticator),
       {| store := s3; trace := trace w ++ calls argv enabled found |}).
Proof.
  intros Hlook Hcreate Hreg Hconn. unfold main. unfold_async. cbn in *.
  rewrite Hlook. cbn. rewrite Hcreate. cbn. rewrite Hreg. cbn. rewrite Hconn.
  rewrite <- !app_assoc. reflexivity.
Qed.

(** What a resolved main() must have gone through. *)
Lemma main_inv (argv : Cli.Argv) (enabled : gset string) (w w1 : World Ext) r :
  run argv enabled w = (Resolved r, w1) ->
  exists found authenticator s1 s2,
    getOrgTenant (Cli.orgName argv) (allocComposer packageVersion (store w)).2
      = (Resolved found, s1) /\
    createAuthenticator (Cli.authentication argv) (nullish_opt found (Cli.tenant argv))
                        (Cli.patToken argv) = inr authenticator /\
    registration argv enabled w authenticator s1 = (Resolved tt, s2) /\
    connect s2 = (Resolved tt, store w1) /\
    run argv enabled w
      = (Resolved (handed argv enabled w authenticator),
         {| store := store w1; trace := trace w ++ calls argv enabled found |}).
Proof.
  intros Hrun.
  destruct (getOrgTenant (Cli.orgName argv) (allocComposer packageVersion (store w)).2)
    as [[found | e] s1] eqn:Hlook.
  - destruct (createAuthenticator (Cli.authentication argv)
                (nullish_opt found (Cli.tenant argv)) (Cli.patToken argv))
      as [e | authenticator] eqn:Hcreate.
    + rewrite (main_authenticator_rejected _ _ _ _ _ argv enabled w found s1 e Hlook Hcreate)
        in Hrun.
      discriminate.
    + destruct (registration argv enabled w authenticator s1) as [[[] | e] s2] eqn:Hreg.
      * destruct (connect s2) as [[[] | e] s3] eqn:Hconn.
        -- pose proof (main_serving_record argv enabled w found s1 authenticator s2 s3
                         Hlook Hcreate Hreg Hconn) as Hrec.
           rewrite Hrec in Hrun. injection Hrun as <- <-. cbn.
           exists found, authenticator, s1, s2. rewrite Hcreate. repeat split; auto.
        -- rewrite (main_connect_rejected _ _ _ _ _ argv enabled w found s1 authenticator
                      s2 e s3 Hlook Hcreate Hreg Hconn) in Hrun.
           discriminate.
      * rewrite (main_registrar_rejected _ _ _ _ _ argv enabled w found s1 authenticator
                   e s2 Hlook Hcreate Hreg) in Hrun.
        discriminate.
  - rewrite (main_lookup_rejected _ _ _ _ _ argv enabled w e s1 Hlook) in Hrun.
    discriminate.
Qed.

(** The calls main() makes, whatever its outcome: a beginning of the
    sequence log, tenant lookup, authenticator factory, registrar,
    connect, in that order. *)
Lemma main_calls_in_order (argv : Cli.Argv) (enabled : gset string) (w : World Ext) :
  exists new found rest,
    trace (run argv enabled w).2 = trace w ++ new /\
    calls argv enabled found = new ++ rest.
Proof.
  destruct (getOrgTenant (Cli.orgName argv) (allocComposer packageVersion (store w)).2)
    as [[found | e] s1] eqn:Hlook.
  - destruct (createAuthenticator (Cli.authentication argv)
                (nullish_opt found (Cli.tenant argv)) (Cli.patToken argv))
      as [e | authenticator] eqn:Hcreate.
    + rewrite (main_authenticator_rejected _ _ _ _ _ argv enabled w found s1 e Hlook Hcreate).
      cbn. rewrite <- !app_assoc. eexists _, found, _. split; reflexivity.
    + destruct (main_trace_after_authenticator _ _ _ configureAllTools connect argv enabled
                  w found s1 authenticator Hlook Hcreate)
        as (tail & -> & [-> | ->]);
        rewrite <- !app_assoc; eexists _, found, _; split; reflexivity.
  - rewrite (main_lookup_rejected _ _ _ _ _ argv enabled w e s1 Hlook).
    cbn. rewrite <- !app_assoc. eexists _, None, _. split; reflexivity.
Qed.

(** X6: on every start-up path, whether the parse, the domain filter,
    the tenant lookup, the authenticator factory, the registrar or the
    connect fails or all succeed, index.ts only appends to its trace of
    calls, and among the calls it makes itself there is no invocation
    of the token provider and no construction of a client: it hands the
    provider and the factory over without running them. *)
Theorem startup_is_lazy (env : Cli.Env) (cl : Cli.CommandLine) (w : World Ext) :
  exists new,
    trace (start env cl w).2 = trace w ++ new /\
    countEvents isTokenRequest new = 0 /\
    countEvents isNewWebApi new = 0.
Proof.
  unfold program.
  destruct (Cli.parseSync env cl) as [f | argv].
  { exists [EvExit 1]. repeat split. }
  destruct (DomainsManager (Cli.domains argv)) as [e | enabled].
  { exists []. cbn. rewrite app_nil_r. repeat split. }
  destruct (main_calls_in_order argv enabled w) as (new & found & rest & Htrace & Hcalls).
  assert (Hnone : countEvents isTokenRequest new = 0 /\ countEvents isNewWebApi new = 0).
  { assert (Hall : countEvents isTokenRequest (new ++ rest) = 0 /\
                   countEvents isNewWebApi (new ++ rest) = 0)
      by (rewrite <- Hcalls; split; reflexivity).
    rewrite !countEvents_app in Hall. lia. }
  destruct (run argv enabled w) as [[r | e] w1]; cbn in *.
  - exists new. split; [exact Htrace | exact Hnone].
  - exists (new ++ [EvLogError e; EvExit 1]).
    rewrite Htrace, <- app_assoc, countEvents_app, countEvents_app. cbn.
    split; [reflexivity | lia].
Qed.

(** X7: the process is serving only after every step succeeded, in
    this order: the parse, the domain filter, one tenant lookup, the
    authenticator factory, the registrar, called once with the set the
    filter computed, and only then the connect; and what the registrar
    received is the authenticator together with a client factory and a
    user-agent getter over the one composer main() created. *)
Theorem serving_requires_every_step (env : Cli.Env) (cl : Cli.CommandLine)
    (w w' : World Ext) (r : Running Ext) :
  start env cl w = (Serving r, w') ->
  exists argv enabled found authenticator s1 s2,
    Cli.parseSync env cl = inr argv /\
    DomainsManager (Cli.domains argv) = inr enabled /\
    getOrgTenant (Cli.orgName argv) (allocComposer packageVersion (store w)).2
      = (Resolved found, s1) /\
    createAuthenticator (Cli.authentication argv) (nullish_opt found (Cli.tenant argv))
                        (Cli.patToken argv) = inr authenticator /\
    configureAllTools authenticator
      (getAzureDevOpsClient packageVersion argv authenticator
         (allocComposer packageVersion (store w)).1)
      (readUserAgent (allocComposer packageVersion (store w)).1)
      enabled s1 = (Resolved tt, s2) /\
    connect s2 = (Resolved tt, store w') /\
    trace w' = trace w ++ [EvLogInfo (Cli.orgUrl argv) (Cli.authentication argv);
                           EvGetOrgTenant (Cli.orgName argv);
                           EvCreateAuthenticator (Cli.authentication argv)
                             (nullish_opt found (Cli.tenant argv)) (Cli.patToken argv);
                           EvConfigureAllTools enabled;
                           EvConnect] /\
    r = {| run_composer := (allocComposer packageVersion (store w)).1;
           run_oninitialized :=
             fun info => writeClientInfo (allocComposer packageVersion (store w)).1 info;
           run_authenticator := authenticator;
           run_clientFactory :=
             getAzureDevOpsClient packageVersion argv authenticator
                                  (allocComposer packageVersion (store w)).1;
           run_userAgent := readUserAgent (allocComposer packageVersion (store w)).1;
           run_enabledDomains := enabled |}.
Proof.
  unfold program. intros Hstart.
  destruct (Cli.parseSync env cl) as [f | argv] eqn:Hparse; [discriminate |].
  destruct (DomainsManager (Cli.domains argv)) as [e | enabled] eqn:Hdom; [discriminate |].
  destruct (run argv enabled w) as [[r0 | e] w0] eqn:Hrun; [| discriminate].
  injection Hstart as -> ->.
  destruct (main_inv argv enabled w w' r Hrun)
    as (found & authenticator & s1 & s2 & Hlook & Hcreate & Hreg & Hconn & Hrec).
  rewrite Hrun in Hrec. injection Hrec as Hr Hw.
  exists argv, enabled, found, authenticator, s1, s2.
  split; [reflexivity |]. split; [exact Hdom |].
  split; [exact Hlook |]. split; [exact Hcreate |].
  split; [exact Hreg |]. split; [exact Hconn |].
  split; [| exact Hr].
  rewrite Hw at 1. reflexivity.
Qed.

(** X8: a failing tenant lookup is fatal: the rejection is not replaced by
    the operator's tenant, the authenticator factory is never called,
    nothing is registered, and the process logs the error and exits
    with code 1. *)
Theorem tenant_lookup_failure_is_fatal (env : Cli.Env) (cl : Cli.CommandLine)
    (argv : Cli.Argv) (enabled : gset string) (w : World Ext) (e : Error) (s1 : Store Ext) :
  Cli.parseSync env cl = inr argv ->
  DomainsManager (Cli.domains argv) = inr enabled ->
  getOrgTenant (Cli.orgName argv) (allocComposer packageVersion (store w)).2
    = (Rejected e, s1) ->
  start env cl w
    = (FatalExit e,
       {| store := s1;
          trace := trace w ++ [EvLogInfo (Cli.orgUrl argv) (Cli.authentication argv);
                               EvGetOrgTenant (Cli.orgName argv);
                               EvLogError e;
                               EvExit 1] |}) /\
  authenticatorCalls (trace (start env cl w).2) = authenticatorCalls (trace w).
Proof.
  intros Hparse Hdom Hlook. unfold program. rewrite Hparse, Hdom.
  rewrite (main_lookup_rejected _ _ _ _ _ argv enabled w e s1 Hlook). cbn.
  rewrite <- !app_assoc. cbn. split; [reflexivity |].
  rewrite authenticatorCalls_app. cbn. apply app_nil_r.
Qed.


End StartupPaths.

(* --------------------------------------------------------------------- *)
(* What main() wires together                                             *)
(* --------------------------------------------------------------------- *)

Section Wiring.

Context {Ext : Type}.
Variable packageVersion : string.
Variable getOrgTenant : string -> Task Ext (option string).
Variable createAuthenticator :
  string -> option string -> option string -> Error + Task Ext string.
Variable configureAllTools :
  Task Ext string -> M Ext Api.WebApi -> M Ext string -> gset string -> Task Ext unit.
Variable connect : Task Ext unit.
Variable argv : Cli.Argv.
Variable enabledDomains : gset string.

Local Abbreviation run :=
  (main packageVersion getOrgTenant createAuthenticator configureAllTools connect
        argv enabledDomains).

(** X10: the pieces the registrar receives agree with each other: a client
    built by the factory it was handed carries a token that the
    authenticator it was handed produced in that invocation, is bound
    to the organization URL, and carries the user agent that the
    user-agent getter it was handed reports at that moment. *)
Theorem registrar_pieces_agree (w0 w1 : World Ext) (r : Running Ext)
    (w w' : World Ext) (client : Api.WebApi) :
  run w0 = (Resolved r, w1) ->
  run_clientFactory r w = (Resolved client, w') ->
  run_userAgent r w' = (Resolved (Api.userAgent (Api.requestSettings client)), w') /\
  Api.serverUrl client = Cli.orgUrl argv /\
  exists accessToken,
    run_authenticator r (store w) = (Resolved accessToken, store w') /\
    Api.handlerToken (Api.authHandler client) = accessToken.
Proof.
  intros Hmain Hbuild.
  destruct (main_inv _ _ _ _ _ argv enabledDomains w0 w1 r Hmain)
    as (found & authenticator & s1 & s2 & _ & _ & _ & _ & Hrec).
  rewrite Hmain in Hrec. injection Hrec as -> _. cbn in *.
  destruct (build_inv _ _ _ _ w w' client Hbuild) as (accessToken & st & Htok & Hst & -> & _).
  split.
  - unfold readUserAgent. rewrite Hst. reflexivity.
  - split; [reflexivity |]. exists accessToken. split; [exact Htok |].
    cbn. destruct (decide (Cli.authentication argv = "pat")); reflexivity.
Qed.

(** X11: the handshake callback main() installs and the factory it hands to
    the registrar reach the same composer: the callback changes nothing
    but that composer, the getter reports the new user agent at once,
    and the next client built carries it, provided the token provider
    answers and leaves the composer alone. *)
Theorem handshake_reaches_clients (w0 w1 : World Ext) (r : Running Ext)
    (w : World Ext) (st : UserAgent.State) (info : option UserAgent.ClientInfo) :
  run w0 = (Resolved r, w1) ->
  heap (store w) !! run_composer r = Some st ->
  exists w2,
    run_oninitialized r info w = (Resolved tt, w2) /\
    trace w2 = trace w /\
    ext (store w2) = ext (store w) /\
    heap (store w2)
      = <[run_composer r := UserAgent.appendMcpClientInfo info st]> (heap (store w)) /\
    run_userAgent r w2
      = (Resolved (UserAgent.userAgent (UserAgent.appendMcpClientInfo info st)), w2) /\
    (forall accessToken s',
       run_authenticator r (store w2) = (Resolved accessToken, s') ->
       heap s' !! run_composer r = heap (store w2) !! run_composer r ->
       exists client w3,
         run_clientFactory r w2 = (Resolved client, w3) /\
         Api.userAgent (Api.requestSettings client)
           = UserAgent.userAgent (UserAgent.appendMcpClientInfo info st)).
Proof.
  intros Hmain Hst.
  destruct (main_inv _ _ _ _ _ argv enabledDomains w0 w1 r Hmain)
    as (found & authenticator & s1 & s2 & _ & _ & _ & _ & Hrec).
  rewrite Hmain in Hrec. injection Hrec as -> _. clear Hmain. cbn in *.
  eexists. split.
  { unfold writeClientInfo. rewrite Hst. reflexivity. }
  cbn. do 3 (split; [reflexivity |]).
  assert (Hnew : (<[fresh (dom (heap (store w0))) := UserAgent.appendMcpClientInfo info st]>
                    (heap (store w)) : gmap Ref UserAgent.State)
                 !! fresh (dom (heap (store w0)))
                 = Some (UserAgent.appendMcpClientInfo info st))
    by apply lookup_insert_eq.
  split.
  - unfold readUserAgent. cbn. rewrite Hnew. reflexivity.
  - intros accessToken s' Htok Hkeep. rewrite Hnew in Hkeep.
    eexists _, _. split.
    + exact (build_resolved packageVersion argv authenticator _
               {| store := {| heap := _; ext := _ |}; trace := _ |}
               accessToken s' _ Htok Hkeep).
    + reflexivity.
Qed.


End Wiring.

(* --------------------------------------------------------------------- *)
(* The further properties at the concrete deployment                      *)
(* --------------------------------------------------------------------- *)

Lemma demo_lookup_known :
  Demo.tenantKnown (Cli.orgName (Demo.argvWith "interactive" None))
                   (allocComposer Demo.version (store Demo.emptyWorld)).2
    = (Resolved (Some "tenant-of-org"),
       (allocComposer Demo.version (store Demo.emptyWorld)).2).
Proof. reflexivity. Qed.

Lemma demo_interactive_authenticator :
  Auth.createAuthenticator Demo.flows
    (Cli.authentication (Demo.argvWith "interactive" None))
    (nullish_opt (Some "tenant-of-org") (Cli.tenant (Demo.argvWith "interactive" None)))
    (Cli.patToken (Demo.argvWith "interactive" None))
    = inr Demo.issuing.
Proof. reflexivity. Qed.

Lemma demo_main_serving :
  exists r,
    main Demo.version Demo.tenantKnown (Auth.createAuthenticator Demo.flows)
         Demo.registrar Demo.connect
         (Demo.argvWith "interactive" None) ∅ Demo.emptyWorld
      = (Resolved r,
         {| store := (allocComposer Demo.version (store Demo.emptyWorld)).2;
            trace := [EvLogInfo "https://dev.azure.com/contoso" "interactive";
                      EvGetOrgTenant "contoso";
                      EvCreateAuthenticator "interactive" (Some "tenant-of-org") None;
                      EvConfigureAllTools ∅;
                      EvConnect] |}) /\
    run_composer r = Demo.composerRef /\
    run_clientFactory r
      = getAzureDevOpsClient Demo.version (Demo.argvWith "interactive" None) Demo.issuing
                             Demo.composerRef.
Proof.
  eexists. split.
  - exact (main_serving_record Demo.version Demo.tenantKnown
             (Auth.createAuthenticator Demo.flows) Demo.registrar Demo.connect
             (Demo.argvWith "interactive" None) ∅
             Demo.emptyWorld (Some "tenant-of-org") _ Demo.issuing _ _
             demo_lookup_known demo_interactive_authenticator eq_refl eq_refl).
  - split; reflexivity.
Qed.

Lemma demo_program_serving :
  exists r w',
    program Demo.version (Domains.resolve Demo.registry) Demo.tenantKnown
            (Auth.createAuthenticator Demo.flows) Demo.registrar Demo.connect
            ∅ (Demo.commandLine None None) Demo.emptyWorld = (Serving r, w').
Proof.
  eexists _, _. vm_compute. reflexivity.
Qed.

Lemma serving_requires_every_step_witness :
  exists r w' argv enabled,
    program Demo.version (Domains.resolve Demo.registry) Demo.tenantKnown
            (Auth.createAuthenticator Demo.flows) Demo.registrar Demo.connect
            ∅ (Demo.commandLine None None) Demo.emptyWorld = (Serving r, w') /\
    Cli.parseSync ∅ (Demo.commandLine None None) = inr argv /\
    Domains.resolve Demo.registry (Cli.domains argv) = inr enabled /\
    run_enabledDomains r = enabled /\
    countEvents isRegistration (trace w') = 1.
Proof.
  destruct demo_program_serving as (r & w' & Hstart).
  destruct (serving_requires_every_step Demo.version (Domains.resolve Demo.registry)
              Demo.tenantKnown (Auth.createAuthenticator Demo.flows) Demo.registrar
              Demo.connect ∅ (Demo.commandLine None None) Demo.emptyWorld w' r Hstart)
    as (argv & enabled & found & authenticator & s1 & s2
        & Hparse & Hdom & _ & _ & _ & _ & Htrace & Hr).
  exists r, w', argv, enabled.
  split; [exact Hstart |]. split; [exact Hparse |]. split; [exact Hdom |].
  split; [rewrite Hr; reflexivity |].
  rewrite Htrace. reflexivity.
Defined.

Lemma tenant_lookup_failure_is_fatal_witness :
  Cli.parseSync ∅ (Demo.commandLine None None) = inr (Demo.argvWith "interactive" None) /\
  (program Demo.version (Domains.resolve Demo.registry) Demo.tenantFailing
           (Auth.createAuthenticator Demo.flows) Demo.registrar Demo.connect
           ∅ (Demo.commandLine None None) Demo.emptyWorld).1
    = FatalExit (OtherError "tenant lookup failed").
Proof.
  split; [reflexivity |].
  edestruct (tenant_lookup_failure_is_fatal Demo.version (Domains.resolve Demo.registry)
               Demo.tenantFailing (Auth.createAuthenticator Demo.flows)
               Demo.registrar Demo.connect ∅
               (Demo.commandLine None None) (Demo.argvWith "interactive" None)
               (list_to_set Demo.registry) Demo.emptyWorld
               (OtherError "tenant lookup failed"))
    as [Hrun _]; [reflexivity | reflexivity | reflexivity |].
  rewrite Hrun. reflexivity.
Defined.


Lemma registrar_pieces_agree_witness :
  exists r w1 client w',
    main Demo.version Demo.tenantKnown (Auth.createAuthenticator Demo.flows)
         Demo.registrar Demo.connect
         (Demo.argvWith "interactive" None) ∅ Demo.emptyWorld = (Resolved r, w1) /\
    run_clientFactory r w1 = (Resolved client, w') /\
    run_userAgent r w' = (Resolved "AzureDevOps.MCP/1.2.3", w') /\
    run_authenticator r (store w1) = (Resolved "token-a", store w').
Proof.
  destruct demo_main_serving as (r & Hmain & Href & Hfactory).
  assert (Hbuild :
    run_clientFactory r
      {| store := (allocComposer Demo.version (store Demo.emptyWorld)).2;
         trace := [EvLogInfo "https://dev.azure.com/contoso" "interactive";
                   EvGetOrgTenant "contoso";
                   EvCreateAuthenticator "interactive" (Some "tenant-of-org") None;
                   EvConfigureAllTools ∅;
                   EvConnect] |}
      = (Resolved (clientOf Demo.version (Demo.argvWith "interactive" None) "token-a"
                            (UserAgent.create Demo.version)),
         {| store := Demo.storeAfterFirst;
            trace := [EvLogInfo "https://dev.azure.com/contoso" "interactive";
                      EvGetOrgTenant "contoso";
                      EvCreateAuthenticator "interactive" (Some "tenant-of-org") None;
                      EvConfigureAllTools ∅;
                      EvConnect;
                      EvTokenRequest;
                      EvNewWebApi "https://dev.azure.com/contoso"] |})).
  { rewrite Hfactory. reflexivity. }
  destruct (registrar_pieces_agree Demo.version Demo.tenantKnown
              (Auth.createAuthenticator Demo.flows) Demo.registrar Demo.connect
              (Demo.argvWith "interactive" None) ∅
              Demo.emptyWorld _ r _ _ _ Hmain Hbuild)
    as (Hagent & _ & accessToken & Htok & Hhandler).
  eexists r, _, _, _. split; [exact Hmain |]. split; [exact Hbuild |].
  split; [exact Hagent |]. cbn in Hhandler. rewrite <- Hhandler in Htok. exact Htok.
Defined.

Lemma handshake_reaches_clients_witness :
  exists r w1 w2,
    main Demo.version Demo.tenantKnown (Auth.createAuthenticator Demo.flows)
         Demo.registrar Demo.connect
         (Demo.argvWith "interactive" None) ∅ Demo.emptyWorld = (Resolved r, w1) /\
    run_oninitialized r (Some Demo.agent) w1 = (Resolved tt, w2) /\
    run_userAgent r w2 = (Resolved "AzureDevOps.MCP/1.2.3 (agent-x/0.1)", w2).
Proof.
  destruct demo_main_serving as (r & Hmain & Href & _).
  destruct (handshake_reaches_clients Demo.version Demo.tenantKnown
              (Auth.createAuthenticator Demo.flows) Demo.registrar Demo.connect
              (Demo.argvWith "interactive" None) ∅
              Demo.emptyWorld _ r
              {| store := (allocComposer Demo.version (store Demo.emptyWorld)).2;
                 trace := [EvLogInfo "https://dev.azure.com/contoso" "interactive";
                           EvGetOrgTenant "contoso";
                           EvCreateAuthenticator "interactive" (Some "tenant-of-org") None;
                           EvConfigureAllTools ∅;
                           EvConnect] |}
              (UserAgent.create Demo.version) (Some Demo.agent) Hmain)
    as (w2 & Hcallback & _ & _ & _ & Hagent & _).
  { rewrite Href. reflexivity. }
  eexists r, _, w2. split; [exact Hmain |]. split; [exact Hcallback | exact Hagent].
Defined.

